(** * EnergyFlowDemix: the demixing layer and the mode dispatch of [archbase.py]

    A shallow embedding of [src/energyflow/archs/archbase.py]:

    - the tensor operations of the Keras backend that the file calls
      ([K.softmax], [K.transpose], [K.sum], [K.expand_dims], [K.dot], ...),
      over lists of real numbers;
    - [to_vertices], [perimeterLoss] and the [DeMixer] model;
    - the hyperparameter processing, construction, [fit], [predict] and the
      two accessors of [NNBase], together with the attribute lookup of
      [ArchBase.__getattr__].

    Numbers are the real numbers of the Standard Library: tensors hold exact
    reals, and the rounding of the 32-bit floats of the backend is not part
    of this development. What these floats change beyond rounding in
    [to_vertices] and [DeMixer.call], an exponential that underflows to 0
    and a quotient of 0 by 0 that is not a number, is the subject of the
    module [F32]. *)

From Stdlib Require Import String Ascii.
From Stdlib Require Import ZArith Reals Lra Lia List Bool Arith Permutation.
Import ListNotations.

Set Implicit Arguments.

(** ** Python exceptions and results *)

Inductive exn : Type :=
| ValueError (msg : string)
| AttributeError (msg : string)
| KeyError (key : string)
| TypeError
| RecursionError
| InvalidArgumentError.

Inductive result (A : Type) : Type :=
| Ok (a : A)
| Raise (e : exn).

Arguments Ok {A} a.
Arguments Raise {A} e.

Definition bind {A B : Type} (r : result A) (k : A -> result B) : result B :=
  match r with
  | Ok a => k a
  | Raise e => Raise e
  end.

Notation "x <- r ;; k" := (bind r (fun x => k))
  (at level 61, r at next level, right associativity).

(** ** Tensors *)

Definition vector := list R.
Definition matrix := list vector.
Definition tensor3 := list matrix.

(** A matrix of [m] rows that all have [n] entries. *)
Definition has_shape (M : matrix) (m n : nat) : Prop :=
  length M = m /\ Forall (fun r => length r = n) M.

Definition has_shapeb (M : matrix) (m n : nat) : bool :=
  (length M =? m)%nat && forallb (fun r => (length r =? n)%nat) M.

(** A point of the probability simplex: non-negative entries that sum to 1. *)
Definition nonneg (v : vector) : Prop := Forall (fun x => (0 <= x)%R) v.

(** ** The backend functions used by the source ([from tf_keras import backend as K]) *)

Module K.

Open Scope R_scope.

(** [K.sum] of a rank-1 tensor: an exact sum, which does not depend on the
    order of its summands as a sum of floats does. *)
Definition sum1 (v : vector) : R := fold_right Rplus 0 v.

(** [K.sum(M, axis=1)]. *)
Definition sum_axis1 (M : matrix) : vector := map sum1 M.

(** [K.sum(T, axis=-1)] of a rank-3 tensor. *)
Definition sum_last (T : tensor3) : matrix := map (map sum1) T.

(** [K.sum(M)]: every entry of a rank-2 tensor. *)
Definition sum_all (M : matrix) : R := sum1 (map sum1 M).

(** Softmax of one row: [exp x_i / sum_j exp x_j], with the exponential of
    the reals, which is never 0. The softmax with an exponential that
    underflows is [F32.softmax_row]. *)
Definition softmax_row (v : vector) : vector :=
  let e := map exp v in map (fun x => x / sum1 e) e.

(** [K.softmax(M, axis=1)]. *)
Definition softmax (M : matrix) : matrix := map softmax_row M.

(** The second dimension of a rank-2 tensor, read off its first row; a
    list without rows stands for the shape [(0, 0)]. *)
Definition ncols (M : matrix) : nat :=
  match M with
  | [] => 0
  | r :: _ => length r
  end.

(** [K.transpose]: row [j] of the result is column [j] of [M]. *)
Definition transpose (M : matrix) : matrix :=
  map (fun j => map (fun r => nth j r 0) M) (seq 0 (ncols M)).

(** [K.expand_dims(v, axis=-1)]: shape [(n)] to [(n, 1)]. *)
Definition expand_dims_last (v : vector) : matrix := map (fun x => [x]) v.

(** [K.expand_dims(M, axis=0)]: shape [(n, d)] to [(1, n, d)]. *)
Definition expand_dims_0 (M : matrix) : tensor3 := [M].

(** [K.expand_dims(M, axis=1)]: shape [(n, d)] to [(n, 1, d)]. *)
Definition expand_dims_1 (M : matrix) : tensor3 := map (fun r => [r]) M.

(** One axis of a broadcasting binary operation: an axis of length 1 is
    stretched along the other operand, axes of the same length are paired.
    The backend rejects operands of two other lengths; on tensors (all rows
    of one length) the operands built by [to_vertices] and [perimeterLoss]
    always broadcast. *)
Definition broadcast {A B C : Type} (f : A -> B -> C)
    (xs : list A) (ys : list B) : list C :=
  match xs, ys with
  | [x], _ => map (f x) ys
  | _, [y] => map (fun x => f x y) xs
  | _, _ => map (fun p => f (fst p) (snd p)) (combine xs ys)
  end.

(** [M / N] on rank-2 tensors. *)
Definition div2 (M N : matrix) : matrix := broadcast (broadcast Rdiv) M N.

(** [A - B] on rank-3 tensors. *)
Definition sub3 (A B : tensor3) : tensor3 :=
  broadcast (broadcast (broadcast Rminus)) A B.

(** [K.square], entry by entry. *)
Definition square (T : tensor3) : tensor3 := map (map (map (fun x => x * x))) T.

(** [M + c] with a scalar [c]. *)
Definition add_scalar (M : matrix) (c : R) : matrix :=
  map (map (fun x => x + c)) M.

(** [K.sqrt]: the backend clips its argument at zero before the root. *)
Definition sqrt (M : matrix) : matrix :=
  map (map (fun x => R_sqrt.sqrt (Rmax x 0))) M.

(** [K.eye(n)]. *)
Definition eye (n : nat) : matrix :=
  map (fun i => map (fun j => if (i =? j)%nat then 1 else 0) (seq 0 n)) (seq 0 n).

(** The slice [M[:, :c]]. *)
Definition slice_cols (M : matrix) (c : nat) : matrix := map (firstn c) M.

(** [K.dot(P, V)] on rank-2 tensors: the matrix product, which the backend
    rejects when a row of [P] has not as many entries as [V] has rows. *)
Definition dot (P V : matrix) : result matrix :=
  if forallb (fun p => (length p =? length V)%nat) P
  then Ok (map (fun p =>
             map (fun k => sum1 (map (fun pv => fst pv * nth k (snd pv) 0)
                                     (combine p V)))
                 (seq 0 (ncols V))) P)
  else Raise InvalidArgumentError.

End K.

Definition simplex (v : vector) : Prop := nonneg v /\ K.sum1 v = 1%R.

(** ** [to_vertices] and [perimeterLoss] *)

Definition to_vertices (raw_fractions : matrix) : matrix :=
  let fractions := K.softmax raw_fractions in
  let raw_vertices := K.transpose fractions in
  let denominator := K.expand_dims_last (K.sum_axis1 raw_vertices) in
  let vertices := K.div2 raw_vertices denominator in
  vertices.

Definition perimeterLoss (raw_fractions : matrix) : R :=
  let vertices := to_vertices raw_fractions in
  let A := K.expand_dims_0 vertices in
  let B := K.expand_dims_1 vertices in
  let pws_squares := K.sum_last (K.square (K.sub3 A B)) in
  let pws_distances := K.sqrt (K.add_scalar pws_squares 1e-9) in
  let edge_lengths := (0.5 * K.sum_all pws_distances)%R in
  edge_lengths.

(** ** Notions used to state the properties *)

(** A row divided by its sum. *)
Definition normalize (row : vector) : vector :=
  map (fun x => (x / K.sum1 row)%R) row.

(** Column [j] of the softmax of the raw matrix: the row that is normalized
    into vertex [j]. *)
Definition raw_vertex (raw : matrix) (j : nat) : vector :=
  map (fun r => nth j (K.softmax_row r) 0%R) raw.

(** One row of [K.dot]: the combination of the rows of [V] with the
    coefficients [p]. *)
Definition dot_row (V : matrix) (p : vector) : vector :=
  map (fun k => K.sum1 (map (fun pv => (fst pv * nth k (snd pv) 0)%R)
                            (combine p V)))
      (seq 0 (K.ncols V)).

(** Squared Euclidean distance of two rows. *)
Definition sqdist (u v : vector) : R :=
  K.sum1 (map (fun p => ((fst p - snd p) * (fst p - snd p))%R) (combine u v)).

(** The summand of the perimeter for two rows. *)
Definition edge (u v : vector) : R := R_sqrt.sqrt (sqdist u v + 1e-9).

(** The sum of [edge] over all ordered pairs [(i, j)] of the [n] rows of
    [V], the pairs [(i, i)] included. *)
Definition ordered_pairs (V : matrix) (n : nat) : R :=
  K.sum1 (map (fun i =>
            K.sum1 (map (fun j => edge (nth i V []) (nth j V [])) (seq 0 n)))
          (seq 0 n)).

(** The sum of [edge] over the pairs [i < j] of the [n] rows of [V]. *)
Definition unordered_pairs (V : matrix) (n : nat) : R :=
  K.sum1 (map (fun i =>
            K.sum1 (map (fun j => edge (nth i V []) (nth j V []))
                        (seq (S i) (n - S i))))
          (seq 0 n)).

(** A relabelling of the categories: column [j] of the result is column
    [nth j perm] of the raw matrix. *)
Definition permute_cols (perm : list nat) (raw : matrix) : matrix :=
  map (fun r => map (fun j => nth j r 0%R) perm) raw.

(** The sum over the pairs of a list, each taken once. *)
Fixpoint pair_sum {A : Type} (e : A -> A -> R) (l : list A) : R :=
  match l with
  | [] => 0%R
  | a :: l' => (K.sum1 (map (e a) l') + pair_sum e l')%R
  end.

(** The raw matrix with [c_i] added to every entry of row [i]. *)
Definition shift_rows (raw : matrix) (shifts : vector) : matrix :=
  map (fun rc => map (fun x => (x + snd rc)%R) (fst rc)) (combine raw shifts).

(** ** The framework around the source

    What [archbase.py] takes from Python, TensorFlow and Keras without
    defining it: the objects of the framework (models, and whatever their
    attributes hold), calling a model on a batch, attribute lookup on such
    an object, the creation of a weight from a constant initializer, the
    expansion of [~] in a path, and the recursion limit of the interpreter. *)

Class Framework : Type := {
  Input : Type;
  Args : Type;
  PyObject : Type;
  model_call : PyObject -> Input -> matrix;
  py_hasattr : PyObject -> string -> bool;
  py_getattr : PyObject -> string -> PyObject;
  add_weight : nat -> nat -> matrix -> result matrix;
  expanduser : string -> string;
  recursion_limit : nat
}.

(** [Constant(value)] used for a weight of the shape that [value] has
    yields [value]. *)
Definition add_weight_constant `{Framework} : Prop :=
  forall (m n : nat) (value : matrix),
    has_shapeb value m n = true -> add_weight m n value = Ok value.

(** ** [DeMixer] *)

Module DeMixer.

Section WithFramework.
Context `{F : Framework}.

(** The closure [lambda: self.alpha * perimeterLoss(self.raw_fractions)]
    reads [alpha] and [raw_fractions] of the layer when it is evaluated. *)
Definition loss_closure : Type := R -> matrix -> R.

Record t : Type := {
  output_dim : nat;
  number_cat : nat;
  alpha : R;
  architecture : PyObject;
  raw_fractions : matrix;
  callable_losses : list loss_closure
}.

Definition __init__ (output_dim number_cat : nat) (alpha : R)
    (architecture : PyObject) : result t :=
  raw_fractions <- add_weight output_dim number_cat
                     (K.slice_cols (K.eye output_dim) number_cat) ;;
  Ok {| output_dim := output_dim;
        number_cat := number_cat;
        alpha := alpha;
        architecture := architecture;
        raw_fractions := raw_fractions;
        callable_losses := [] |}.

Definition getFractions (self : t) : matrix := K.softmax (raw_fractions self).

Definition getVertices (self : t) : matrix := to_vertices (raw_fractions self).

Definition add_loss (self : t) (f : loss_closure) : t :=
  {| output_dim := output_dim self;
     number_cat := number_cat self;
     alpha := alpha self;
     architecture := architecture self;
     raw_fractions := raw_fractions self;
     callable_losses := callable_losses self ++ [f] |}.

(** The values of the registered loss terms. *)
Definition losses (self : t) : list R :=
  map (fun f => f (alpha self) (raw_fractions self)) (callable_losses self).

(** [call] returns the layer, with its loss registered, and the outputs. *)
Definition call (self : t) (inputs : Input) : t * result matrix :=
  let barycentric := model_call (architecture self) inputs in
  let self := add_loss self (fun alpha raw_fractions =>
                               (alpha * perimeterLoss raw_fractions)%R) in
  let vertices := to_vertices (raw_fractions self) in
  let outputs := K.dot barycentric vertices in
  (self, outputs).

End WithFramework.

Arguments t {F}.

End DeMixer.

(** ** [to_vertices] and [DeMixer.call] on 32-bit floats

    The weights of the layer and the tensors computed from them are 32-bit
    floats. Two things that floats do differently from real numbers go
    beyond rounding, and they are written out here: the exponential of the
    backend returns 0 for an argument far enough below 0, and a quotient by
    0 is not a number. The other operations stay exact. *)

Module F32.

Open Scope R_scope.

(** A float: a finite value, or [None] for NaN and the infinities. *)
Definition f32 : Type := option R.

(** The exponential of the backend on 32-bit floats. *)
Class Exp : Type := { exp32 : R -> R }.

(** What is used of it, for arguments [x <= 0]: [exp32 0] is 1, no result is
    negative, the result is 0 below -104 ([e^-104] is less than [2^-150],
    half of the least positive float) and it is positive from -87 on
    ([e^-87] is more than [2^-126], the least normal float). Between -104
    and -87 the result is a subnormal float or 0. *)
Definition exp32_contract `{Exp} : Prop :=
  exp32 0 = 1 /\
  (forall x, x <= 0 -> 0 <= exp32 x) /\
  (forall x, x < -104 -> exp32 x = 0) /\
  (forall x, -87 <= x <= 0 -> 0 < exp32 x).

Section WithExp.
Context `{E : Exp}.

(** The largest entry of a row. *)
Definition row_max (v : vector) : R :=
  match v with
  | [] => 0
  | x :: v' => fold_right Rmax x v'
  end.

(** Softmax of one row as the backend computes it: the largest entry of the
    row is subtracted before the exponential,
    [exp(x_i - m) / sum_j exp(x_j - m)]. The largest entry itself adds
    [exp32 0 = 1] to the sum, so that this quotient is never one by 0. *)
Definition softmax_row (v : vector) : vector :=
  let m := row_max v in
  let e := map (fun x => exp32 (x - m)) v in
  map (fun x => x / K.sum1 e) e.

(** [K.softmax(M, axis=1)]. *)
Definition softmax (M : matrix) : matrix := map softmax_row M.

(** [x / d]: not a number when [d] is 0. *)
Definition div (x d : R) : f32 :=
  if Req_dec_T d 0 then None else Some (x / d).

Definition to_vertices (raw_fractions : matrix) : list (list f32) :=
  let fractions := softmax raw_fractions in
  let raw_vertices := K.transpose fractions in
  let denominator := K.expand_dims_last (K.sum_axis1 raw_vertices) in
  let vertices := K.broadcast (K.broadcast div) raw_vertices denominator in
  vertices.

(** Products and sums with NaN are NaN, [0 * NaN] included. *)
Definition mul (p : R) (v : f32) : f32 := option_map (Rmult p) v.

Definition add (a b : f32) : f32 :=
  match a, b with
  | Some x, Some y => Some (x + y)
  | _, _ => None
  end.

Definition sum1 (v : list f32) : f32 := fold_right add (Some 0) v.

Definition ncols (V : list (list f32)) : nat :=
  match V with
  | [] => 0%nat
  | r :: _ => length r
  end.

(** [K.dot(P, V)] with the finite rows [P] of the inner model. *)
Definition dot (P : matrix) (V : list (list f32)) : result (list (list f32)) :=
  if forallb (fun p => (length p =? length V)%nat) P
  then Ok (map (fun p =>
             map (fun k => sum1 (map (fun pv => mul (fst pv)
                                                    (nth k (snd pv) (Some 0)))
                                     (combine p V)))
                 (seq 0 (ncols V))) P)
  else Raise InvalidArgumentError.

(** A row of finite values that is a point of the simplex. *)
Definition finite_simplex (row : list f32) : Prop :=
  exists r : vector, row = map Some r /\ simplex r.

(** Column [c] of the softmax does not underflow as a whole when some row
    has, in column [c], an entry at most 87 below the largest entry of that
    row. *)
Definition column_survives (raw : matrix) (c : nat) : Prop :=
  exists row, In row raw /\ -87 <= nth c row 0 - row_max row.

Definition no_column_underflow (raw : matrix) (number_cat : nat) : Prop :=
  forall c, (c < number_cat)%nat -> column_survives raw c.

End WithExp.

Section WithFramework.
Context `{E : Exp} `{F : Framework}.

Definition getVertices (self : DeMixer.t) : list (list f32) :=
  to_vertices (DeMixer.raw_fractions self).

(** [DeMixer.call] with the vertex matrix and the product on floats. *)
Definition call (self : DeMixer.t) (inputs : Input)
    : DeMixer.t * result (list (list f32)) :=
  let barycentric := model_call (DeMixer.architecture self) inputs in
  let self := DeMixer.add_loss self (fun alpha raw_fractions =>
                                       alpha * perimeterLoss raw_fractions) in
  let vertices := to_vertices (DeMixer.raw_fractions self) in
  let outputs := dot barycentric vertices in
  (self, outputs).

End WithFramework.

End F32.

(** ** Python strings, values and dictionaries *)

Open Scope string_scope.

(** [str.lower] on strings of ASCII characters: the letters [A] to [Z] are
    lowered, every other character is kept. *)
Definition lower_ascii (c : ascii) : ascii :=
  let n := nat_of_ascii c in
  if ((65 <=? n) && (n <=? 90))%nat then ascii_of_nat (n + 32) else c.

Fixpoint lower (s : string) : string :=
  match s with
  | EmptyString => EmptyString
  | String c s' => String (lower_ascii c) (lower s')
  end.

(** [sorted] on a list of strings. *)
Fixpoint insert_sorted (s : string) (l : list string) : list string :=
  match l with
  | [] => [s]
  | x :: l' => if String.leb s x then s :: l else x :: insert_sorted s l'
  end.

Definition sorted (l : list string) : list string :=
  fold_right insert_sorted [] l.

(** [repr] of a list of strings that hold no quote and no escape. *)
Definition repr_list (l : list string) : string :=
  "[" ++ String.concat ", " (map (fun s => "'" ++ s ++ "'") l) ++ "]".

(** Hyperparameter values that [NNBase] only stores or hands on. *)
Inductive pyval : Type :=
| PyNone
| PyBool (b : bool)
| PyInt (z : Z)
| PyStr (s : string)
| PyStrList (l : list string)
| PyOpaque (id : nat).

(** Truth value of [if v:]. *)
Definition truthy (v : pyval) : bool :=
  match v with
  | PyNone => false
  | PyBool b => b
  | PyInt z => negb (z =? 0)%Z
  | PyStr s => negb (s =? "")
  | PyStrList l => negb (length l =? 0)%nat
  | PyOpaque _ => true
  end.

Definition is_not_None (v : pyval) : bool :=
  match v with
  | PyNone => false
  | _ => true
  end.

(** A dictionary with string keys, in insertion order. *)
Definition dict : Type := list (string * pyval).

Fixpoint dict_set (d : dict) (k : string) (v : pyval) : dict :=
  match d with
  | [] => [(k, v)]
  | (k', v') :: d' =>
      if k' =? k then (k, v) :: d' else (k', v') :: dict_set d' k v
  end.

(** [d.update(u)]. *)
Definition dict_update (d u : dict) : dict :=
  fold_left (fun acc kv => dict_set acc (fst kv) (snd kv)) u d.

(** [d[k]]. *)
Fixpoint dict_getitem (d : dict) (k : string) : result pyval :=
  match d with
  | [] => Raise (KeyError k)
  | (k', v) :: d' => if k' =? k then Ok v else dict_getitem d' k
  end.

(** [k in d]. *)
Definition has_key (d : dict) (k : string) : Prop :=
  exists v, dict_getitem d k = Ok v.

(** The keys of a dictionary, in insertion order. *)
Definition dict_keys (d : dict) : list string := map fst d.

(** [d.pop(k)]: the value of the key and the dictionary without it, or
    [None] when the key is missing. *)
Fixpoint dict_pop (d : dict) (k : string) : option (pyval * dict) :=
  match d with
  | [] => None
  | (k', v) :: d' =>
      if k' =? k then Some (v, d')
      else match dict_pop d' k with
           | Some (w, d'') => Some (w, (k', v) :: d'')
           | None => None
           end
  end.

(** [d.get(k)]. *)
Definition dict_get (d : dict) (k : string) : option pyval :=
  match dict_getitem d k with
  | Ok v => Some v
  | Raise _ => None
  end.

(** ** [ArchBase] *)

Module ArchBase.

(** The warning that [_proc_arg] gives for a deprecated key. *)
Definition deprecated (old name : string) : string :=
  "'" ++ old ++ "' is deprecated and will be removed in the future, "
  ++ "use '" ++ name ++ "' instead.".

(** [self.hps] as [__init__] stores it: the positional dictionaries in
    their order, then the keyword arguments. *)
Definition hps (args : list dict) (kwargs : dict) : dict :=
  (* store all options *)
  let hps : dict := [] in
  let hps := fold_left dict_update args hps in
  dict_update hps kwargs.

(** [__init__], with the two abstract methods of the class as arguments. *)
Definition __init__ {S : Type} (_process_hps : dict -> result S)
    (_construct_model : S -> result S) (args : list dict) (kwargs : dict)
    : result S :=
  (* process hyperparameters *)
  self <- _process_hps (hps args kwargs) ;;
  (* construct model *)
  _construct_model self.

(** [self._proc_arg(name, old=old, default=default)], where [old] and
    [default] are [None] when the keyword is not given. The result is the
    value, what is left of [self.hps], and the warnings given. *)
Definition _proc_arg (hps : dict) (name : string) (old : option string)
    (default : option pyval) : result (pyval * dict * list string) :=
  let '(hps, default, warned) :=
    match old with
    | Some o =>
        match dict_pop hps o with
        | Some (v, hps') => (hps', Some v, [deprecated o name])
        | None => (hps, default, [])
        end
    | None => (hps, default, [])
    end in
  match dict_pop hps name, default with
  | Some (v, hps'), _ => Ok (v, hps', warned)
  | None, Some v => Ok (v, hps, warned)
  | None, None => Raise (KeyError name)
  end.

(** [self._verify_empty_hps()]. *)
Definition _verify_empty_hps (hps : dict) : result unit :=
  (* hps should be all empty now *)
  match hps with
  | (k, _) :: _ => Raise (ValueError ("unrecognized keyword argument " ++ k))
  | [] => Ok tt
  end.

End ArchBase.

(** The hyperparameters that [NNBase._process_hps] pops from [self.hps],
    each at the type its documentation gives it; [None] is a key that the
    caller did not supply. *)
Record hps : Type := {
  hp_loss : option pyval;
  hp_optimizer : option pyval;
  hp_metrics : option pyval;
  hp_compile_opts : option dict;
  hp_output_dim : option nat;
  hp_output_act : option pyval;
  hp_filepath : option (option string);
  hp_save_while_training : option bool;
  hp_save_weights_only : option bool;
  hp_modelcheck_opts : option dict;
  hp_patience : option pyval;
  hp_earlystop_opts : option dict;
  hp_name_layers : option bool;
  hp_compile : option bool;
  hp_summary : option bool;
  hp_number_cat : option nat;
  hp_mode : option string;
  hp_alpha : option R
}.

(** [self._proc_arg(name, default=default)]: the value popped for the key,
    or the default. *)
Definition _proc_arg {A : Type} (value : option A) (default : A) : A :=
  match value with
  | Some v => v
  | None => default
  end.

(** ** [NNBase] *)

Module NNBase.

Section WithFramework.
Context `{F : Framework}.

Record t : Type := {
  compile_opts : dict;
  loss : pyval;
  optimizer : pyval;
  metrics : pyval;
  output_dim : nat;
  output_act : pyval;
  filepath : option string;
  save_while_training : bool;
  modelcheck_opts : dict;
  save_weights_only : pyval;
  earlystop_opts : dict;
  patience : pyval;
  name_layers : bool;
  compile : bool;
  summary : bool;
  number_cat : nat;
  mode : string;
  alpha : R;
  (** set in demix mode only *)
  demixer_output_dim : option nat;
  (** [None]: the attribute does not exist *)
  _model : option PyObject;
  _demixer : option DeMixer.t
}.

Definition allowed_modes : list string := ["demix"; "plain"].

Definition unrecognised_mode (mode : string) : string :=
  "Unrecognised mode '" ++ mode ++ "'. " ++
  "Valid options are " ++ repr_list (sorted allowed_modes) ++ ".".

Definition _process_hps (h : hps) : result t :=
  (* compilation *)
  let compile_opts :=
    [("loss", _proc_arg (hp_loss h) (PyStr "categorical_crossentropy"));
     ("optimizer", _proc_arg (hp_optimizer h) (PyStr "adam"));
     ("metrics", _proc_arg (hp_metrics h) (PyStrList ["acc"]))] in
  let compile_opts := dict_update compile_opts (_proc_arg (hp_compile_opts h) []) in
  loss <- dict_getitem compile_opts "loss" ;;
  optimizer <- dict_getitem compile_opts "optimizer" ;;
  metrics <- dict_getitem compile_opts "metrics" ;;
  (* output *)
  let output_dim := _proc_arg (hp_output_dim h) 2%nat in
  let output_act := _proc_arg (hp_output_act h) (PyStr "softmax") in
  (* callbacks *)
  let filepath := _proc_arg (hp_filepath h) None in
  let filepath :=
    match filepath with
    | Some path => Some (expanduser path)
    | None => None
    end in
  let save_while_training := _proc_arg (hp_save_while_training h) true in
  let modelcheck_opts :=
    [("save_best_only", PyBool true); ("verbose", PyInt 1);
     ("save_weights_only", PyBool (_proc_arg (hp_save_weights_only h) false))] in
  let modelcheck_opts :=
    dict_update modelcheck_opts (_proc_arg (hp_modelcheck_opts h) []) in
  save_weights_only <- dict_getitem modelcheck_opts "save_weights_only" ;;
  let earlystop_opts :=
    [("restore_best_weights", PyBool true); ("verbose", PyInt 1);
     ("patience", _proc_arg (hp_patience h) PyNone)] in
  let earlystop_opts :=
    dict_update earlystop_opts (_proc_arg (hp_earlystop_opts h) []) in
  patience <- dict_getitem earlystop_opts "patience" ;;
  (* flags *)
  let name_layers := _proc_arg (hp_name_layers h) true in
  let compile := _proc_arg (hp_compile h) true in
  let summary := _proc_arg (hp_summary h) true in
  (* number of categories (for the demixer) *)
  let number_cat := _proc_arg (hp_number_cat h) output_dim in
  let mode := lower (_proc_arg (hp_mode h) "demix") in
  let alpha := _proc_arg (hp_alpha h) 0.0001%R in
  if negb (existsb (String.eqb mode) allowed_modes)
  then Raise (ValueError (unrecognised_mode mode))
  else
    let self :=
      {| compile_opts := compile_opts; loss := loss; optimizer := optimizer;
         metrics := metrics; output_dim := output_dim; output_act := output_act;
         filepath := filepath; save_while_training := save_while_training;
         modelcheck_opts := modelcheck_opts;
         save_weights_only := save_weights_only;
         earlystop_opts := earlystop_opts; patience := patience;
         name_layers := name_layers; compile := compile; summary := summary;
         number_cat := number_cat; mode := mode; alpha := alpha;
         demixer_output_dim := None; _model := None; _demixer := None |} in
    (* update output_dim to ensure the output dimension of the inner model *)
    if mode =? "demix"
    then Ok {| compile_opts := compile_opts; loss := loss; optimizer := optimizer;
               metrics := metrics; output_dim := number_cat;
               output_act := output_act;
               filepath := filepath; save_while_training := save_while_training;
               modelcheck_opts := modelcheck_opts;
               save_weights_only := save_weights_only;
               earlystop_opts := earlystop_opts; patience := patience;
               name_layers := name_layers; compile := compile; summary := summary;
               number_cat := number_cat; mode := mode; alpha := alpha;
               demixer_output_dim := Some output_dim;
               _model := None; _demixer := None |}
    else Ok self.

Definition set__model (self : t) (m : PyObject) : t :=
  {| compile_opts := compile_opts self; loss := loss self;
     optimizer := optimizer self; metrics := metrics self;
     output_dim := output_dim self; output_act := output_act self;
     filepath := filepath self; save_while_training := save_while_training self;
     modelcheck_opts := modelcheck_opts self;
     save_weights_only := save_weights_only self;
     earlystop_opts := earlystop_opts self; patience := patience self;
     name_layers := name_layers self; compile := compile self;
     summary := summary self; number_cat := number_cat self;
     mode := mode self; alpha := alpha self;
     demixer_output_dim := demixer_output_dim self;
     _model := Some m; _demixer := _demixer self |}.

Definition set__demixer (self : t) (d : DeMixer.t) : t :=
  {| compile_opts := compile_opts self; loss := loss self;
     optimizer := optimizer self; metrics := metrics self;
     output_dim := output_dim self; output_act := output_act self;
     filepath := filepath self; save_while_training := save_while_training self;
     modelcheck_opts := modelcheck_opts self;
     save_weights_only := save_weights_only self;
     earlystop_opts := earlystop_opts self; patience := patience self;
     name_layers := name_layers self; compile := compile self;
     summary := summary self; number_cat := number_cat self;
     mode := mode self; alpha := alpha self;
     demixer_output_dim := demixer_output_dim self;
     _model := _model self; _demixer := Some d |}.

End WithFramework.

Arguments t {F}.

(** The concrete architecture that derives from [NNBase]: its class name
    and its [_construct_model], which [ArchBase] and [NNBase] leave
    abstract. The hyperparameters of its own that such a class pops after
    those of [NNBase] are not part of this file. *)
Class Architecture `{F : Framework} : Type := {
  __name__ : string;
  _construct_model : t -> result t
}.

(** An architecture whose [_construct_model] stores the model that it
    builds from the processed hyperparameters in [self._model]. *)
Definition stores_model `{A : Architecture} (build : t -> PyObject) : Prop :=
  forall self : t, _construct_model self = Ok (set__model self (build self)).

Section WithArchitecture.
Context `{A : Architecture}.

(** The callbacks that [fit] builds. *)
Inductive callback : Type :=
| ModelCheckpoint (filepath : string) (opts : dict)
| EarlyStopping (opts : dict).

(** What [fit] and [predict] are called on: the demixer, or an object of
    the framework. *)
Definition target : Type := (DeMixer.t + PyObject)%type.

(** The calls into the framework that a method makes, in their order.
    [FitCall] carries the callbacks added by [fit]; those the caller passed
    are part of [args]. *)
Inductive event : Type :=
| CompileCall (on : target) (opts : dict)
| FitCall (on : target) (args : Args) (callbacks : list callback)
| SaveWeightsCall (on : target) (filepath : string)
| SaveCall (on : target) (filepath : string)
| PredictCall (on : target) (args : Args)
| GcCollect.

(** The object on which a call into the framework is made. *)
Definition on_target (ev : event) : option target :=
  match ev with
  | CompileCall on _ | FitCall on _ _ | SaveWeightsCall on _
  | SaveCall on _ | PredictCall on _ => Some on
  | GcCollect => None
  end.

(** [hasattr(self, name)], from the outcome of the lookup of the name:
    only an [AttributeError] is turned into [False]. *)
Definition hasattr {V : Type} (lookup : result V) : result bool :=
  match lookup with
  | Ok _ => Ok true
  | Raise (AttributeError _) => Ok false
  | Raise e => Raise e
  end.

(** Attribute lookup on an object whose class defines [__getattr__]: when
    the regular lookup raises [AttributeError], the hook is called. *)
Definition with_hook {V : Type} (found hook : result V) : result V :=
  match found with
  | Raise (AttributeError _) => hook
  | _ => found
  end.

(** [ArchBase.__getattr__(self, attr)], given what [self.model] evaluates to. *)
Definition __getattr__ (self_model : result PyObject) (attr : string)
    : result PyObject :=
  model <- self_model ;;
  if py_hasattr model attr
  then Ok (py_getattr model attr)
  else Raise (AttributeError
                ("'" ++ __name__ ++ "' object has no attribute '" ++ attr ++ "', "
                 ++ "check of underlying model failed")).

(** [self.model]: the property of [NNBase], looked up on an instance of a
    class that has the hook of [ArchBase]. [depth] bounds the nesting of
    the evaluations of [self.model]. *)
Fixpoint model (depth : nat) (self : t) : result PyObject :=
  match depth with
  | O => Raise RecursionError
  | S depth' =>
      let self_model := model depth' self in
      let self__model :=
        match _model self with
        | Some m => Ok m
        | None => __getattr__ self_model "_model"
        end in
      let property :=
        has <- hasattr self__model ;;
        if (has : bool)
        then self__model
        else Raise (AttributeError
                      ("'" ++ __name__ ++ "' object has no underlying model")) in
      with_hook property (__getattr__ self_model "model")
  end.

Definition self_model (self : t) : result PyObject :=
  model recursion_limit self.

(** [self.demixer]. *)
Definition demixer (self : t) : result target :=
  let forwarded (attr : string) : result target :=
    o <- __getattr__ (self_model self) attr ;; Ok (inr o) in
  let self__demixer :=
    match _demixer self with
    | Some d => Ok (inl d)
    | None => forwarded "_demixer"
    end in
  let property :=
    has <- hasattr self__demixer ;;
    if (has : bool)
    then self__demixer
    else Raise (AttributeError
                  ("'" ++ __name__ ++ "' object has no underlying demixer")) in
  with_hook property (forwarded "demixer").

Definition _compile_demixer (self : t) : result (list event) :=
  (* compile model if specified *)
  if compile self
  then on <- demixer self ;; Ok [CompileCall on (compile_opts self)]
  else Ok [].

(** [self.demixer_output_dim] exists when [_process_hps] found the mode
    ['demix'], and only then does [__init__] call this method. Without the
    attribute the lookup goes through the hook of [ArchBase]; an attribute
    forwarded from the inner model is not a dimension of this file. *)
Definition _construct_demixer (self : t) : result (t * list event) :=
  output_dim <- match demixer_output_dim self with
                | Some d => Ok d
                | None =>
                    _ <- __getattr__ (self_model self) "demixer_output_dim" ;;
                    Raise TypeError
                end ;;
  architecture <- self_model self ;;
  d <- DeMixer.__init__ output_dim (number_cat self) (alpha self) architecture ;;
  let self := set__demixer self d in
  events <- _compile_demixer self ;;
  Ok (self, events).

(** [ArchBase.__init__] on the merged hyperparameters. *)
Definition ArchBase__init__ (h : hps) : result t :=
  (* process hyperparameters *)
  self <- _process_hps h ;;
  (* construct model *)
  _construct_model self.

(** [NNBase.__init__]: the object, and the calls made on the demixer. *)
Definition __init__ (h : hps) : result (t * list event) :=
  self <- ArchBase__init__ h ;;
  (* construct the demixer *)
  if mode self =? "demix"
  then _construct_demixer self
  else Ok (self, []).

(** [fit], as the calls it makes; what it returns is what the call of
    [fitTarget.fit] returns. *)
Definition fit (self : t) (args : Args) : result (list event) :=
  fitTarget <- (if mode self =? "demix"
                then demixer self
                else m <- self_model self ;; Ok (inr m)) ;;
  (* list of callback functions *)
  let callbacks : list callback := [] in
  (* do model checkpointing *)
  let callbacks :=
    match filepath self with
    | Some path =>
        if negb (path =? "") && save_while_training self
        then (callbacks ++ [ModelCheckpoint path (modelcheck_opts self)])%list
        else callbacks
    | None => callbacks
    end in
  (* do early stopping *)
  let callbacks :=
    if is_not_None (patience self)
    then (callbacks ++ [EarlyStopping (earlystop_opts self)])%list
    else callbacks in
  (* do the fitting *)
  let hist := [FitCall fitTarget args callbacks] in
  (* handle saving at the end, if we weren't already saving throughout *)
  let saved :=
    match filepath self with
    | Some path =>
        if negb (path =? "") && negb (save_while_training self)
        then if truthy (save_weights_only self)
             then [SaveWeightsCall fitTarget path]
             else [SaveCall fitTarget path]
        else []
    | None => []
    end in
  (* take out the trash *)
  Ok (hist ++ saved ++ [GcCollect])%list.

Definition predict (self : t) (args : Args) : result (list event) :=
  predictTarget <- (if mode self =? "demix"
                    then demixer self
                    else m <- self_model self ;; Ok (inr m)) ;;
  Ok [PredictCall predictTarget args].

(** The calls that the compilation of a model makes on it. *)
Inductive model_event : Type :=
| ModelCompileCall (on : PyObject) (opts : dict)
| SummaryCall (on : PyObject).

Definition _proc_name (self : t) (name : string) : option string :=
  if name_layers self then Some name else None.

Definition _compile_model (self : t) : result (list model_event) :=
  (* compile model if specified *)
  if compile self
  then
    m <- self_model self ;;
    let compiled := [ModelCompileCall m (compile_opts self)] in
    (* print summary *)
    if summary self
    then m' <- self_model self ;; Ok (compiled ++ [SummaryCall m'])%list
    else Ok compiled
  else Ok [].

(** [fit] and [predict] make their calls on the object [on]: the fit, and
    what is saved after it, and the prediction. *)
Definition dispatches_to (self : t) (on : target) (args : Args) : Prop :=
  (exists callbacks saved,
     fit self args = Ok (FitCall on args callbacks :: saved ++ [GcCollect])%list /\
     Forall (fun ev => on_target ev = Some on) saved) /\
  predict self args = Ok [PredictCall on args].

End WithArchitecture.

End NNBase.

(** ** A concrete framework and architecture

    Small instances on which the statements below are evaluated: objects are
    numbers without attributes of their own, a model returns its input
    batch, and a weight is created when the initial value has its shape. *)

Definition demo_framework : Framework :=
  {| Input := matrix;
     Args := unit;
     PyObject := nat;
     model_call := fun _ inputs => inputs;
     py_hasattr := fun _ _ => false;
     py_getattr := fun o _ => o;
     add_weight := fun m n value =>
       if has_shapeb value m n then Ok value else Raise InvalidArgumentError;
     expanduser := fun path => path;
     recursion_limit := 1000 |}.

Definition demo_model : @PyObject demo_framework := 7%nat.

Definition demo_architecture : @NNBase.Architecture demo_framework :=
  {| NNBase.__name__ := "DNN";
     NNBase._construct_model := fun self : @NNBase.t demo_framework =>
       Ok (@NNBase.set__model demo_framework self demo_model) |}.

(** An architecture whose [_construct_model] stores nothing. *)
Definition bare_architecture : @NNBase.Architecture demo_framework :=
  {| NNBase.__name__ := "DNN";
     NNBase._construct_model := fun self : @NNBase.t demo_framework => Ok self |}.

Definition demo_demixer : @DeMixer.t demo_framework :=
  {| DeMixer.output_dim := 2;
     DeMixer.number_cat := 3;
     DeMixer.alpha := 0.0001%R;
     DeMixer.architecture := demo_model;
     DeMixer.raw_fractions := [[0; 1; 5]; [2; 0; -3]]%R;
     DeMixer.callable_losses := [] |}.

(** An exponential with the underflow of 32-bit floats: 0 below -104, the
    exact exponential from there on. *)
Definition demo_exp : F32.Exp :=
  {| F32.exp32 := fun x => if Rlt_dec x (-104) then 0%R else exp x |}.

(** A layer with two outputs and two categories whose second category is
    far below the first in both rows. *)
Definition underflow_demixer : @DeMixer.t demo_framework :=
  {| DeMixer.output_dim := 2;
     DeMixer.number_cat := 2;
     DeMixer.alpha := 0.0001%R;
     DeMixer.architecture := demo_model;
     DeMixer.raw_fractions := [[0; -110]; [0; -110]]%R;
     DeMixer.callable_losses := [] |}.

Definition no_hps : hps :=
  {| hp_loss := None; hp_optimizer := None; hp_metrics := None;
     hp_compile_opts := None; hp_output_dim := None; hp_output_act := None;
     hp_filepath := None; hp_save_while_training := None;
     hp_save_weights_only := None; hp_modelcheck_opts := None;
     hp_patience := None; hp_earlystop_opts := None; hp_name_layers := None;
     hp_compile := None; hp_summary := None; hp_number_cat := None;
     hp_mode := None; hp_alpha := None |}.

Definition with_mode (h : hps) (mode : string) : hps :=
  {| hp_loss := hp_loss h; hp_optimizer := hp_optimizer h;
     hp_metrics := hp_metrics h; hp_compile_opts := hp_compile_opts h;
     hp_output_dim := hp_output_dim h; hp_output_act := hp_output_act h;
     hp_filepath := hp_filepath h;
     hp_save_while_training := hp_save_while_training h;
     hp_save_weights_only := hp_save_weights_only h;
     hp_modelcheck_opts := hp_modelcheck_opts h;
     hp_patience := hp_patience h; hp_earlystop_opts := hp_earlystop_opts h;
     hp_name_layers := hp_name_layers h; hp_compile := hp_compile h;
     hp_summary := hp_summary h; hp_number_cat := hp_number_cat h;
     hp_mode := Some mode; hp_alpha := hp_alpha h |}.

Definition with_dims (h : hps) (output_dim number_cat : nat) : hps :=
  {| hp_loss := hp_loss h; hp_optimizer := hp_optimizer h;
     hp_metrics := hp_metrics h; hp_compile_opts := hp_compile_opts h;
     hp_output_dim := Some output_dim; hp_output_act := hp_output_act h;
     hp_filepath := hp_filepath h;
     hp_save_while_training := hp_save_while_training h;
     hp_save_weights_only := hp_save_weights_only h;
     hp_modelcheck_opts := hp_modelcheck_opts h;
     hp_patience := hp_patience h; hp_earlystop_opts := hp_earlystop_opts h;
     hp_name_layers := hp_name_layers h; hp_compile := hp_compile h;
     hp_summary := hp_summary h; hp_number_cat := Some number_cat;
     hp_mode := hp_mode h; hp_alpha := hp_alpha h |}.

(** Hyperparameters in which the dictionaries of options give a loss and a
    patience of their own. *)
Definition override_hps : hps :=
  {| hp_loss := Some (PyStr "mse"); hp_optimizer := None; hp_metrics := None;
     hp_compile_opts := Some [("loss", PyStr "mae")];
     hp_output_dim := None; hp_output_act := None;
     hp_filepath := None; hp_save_while_training := None;
     hp_save_weights_only := Some false;
     hp_modelcheck_opts := Some [("save_weights_only", PyBool true)];
     hp_patience := Some (PyInt 3);
     hp_earlystop_opts := Some [("patience", PyInt 0)];
     hp_name_layers := None;
     hp_compile := None; hp_summary := None; hp_number_cat := None;
     hp_mode := Some "plain"; hp_alpha := None |}.

(** An [NNBase] in plain mode, as [_process_hps] leaves it when only the
    mode is given: [_construct_model] has not run. *)
Definition demo_unbuilt : @NNBase.t demo_framework :=
  {| NNBase.compile_opts :=
       [("loss", PyStr "categorical_crossentropy"); ("optimizer", PyStr "adam");
        ("metrics", PyStrList ["acc"])];
     NNBase.loss := PyStr "categorical_crossentropy";
     NNBase.optimizer := PyStr "adam";
     NNBase.metrics := PyStrList ["acc"];
     NNBase.output_dim := 2;
     NNBase.output_act := PyStr "softmax";
     NNBase.filepath := None;
     NNBase.save_while_training := true;
     NNBase.modelcheck_opts :=
       [("save_best_only", PyBool true); ("verbose", PyInt 1);
        ("save_weights_only", PyBool false)];
     NNBase.save_weights_only := PyBool false;
     NNBase.earlystop_opts :=
       [("restore_best_weights", PyBool true); ("verbose", PyInt 1);
        ("patience", PyNone)];
     NNBase.patience := PyNone;
     NNBase.name_layers := true;
     NNBase.compile := true;
     NNBase.summary := true;
     NNBase.number_cat := 2;
     NNBase.mode := "plain";
     NNBase.alpha := 0.0001%R;
     NNBase.demixer_output_dim := None;
     NNBase._model := None;
     NNBase._demixer := None |}.

(** The same object once [_construct_model] has stored a model. *)
Definition demo_built : @NNBase.t demo_framework :=
  @NNBase.set__model demo_framework demo_unbuilt demo_model.

(** An [NNBase] in plain mode with a model, a file path, no saving while
    training and a patience of 0. *)
Definition demo_saving : @NNBase.t demo_framework :=
  {| NNBase.compile_opts := NNBase.compile_opts demo_unbuilt;
     NNBase.loss := NNBase.loss demo_unbuilt;
     NNBase.optimizer := NNBase.optimizer demo_unbuilt;
     NNBase.metrics := NNBase.metrics demo_unbuilt;
     NNBase.output_dim := 2;
     NNBase.output_act := PyStr "softmax";
     NNBase.filepath := Some "model.h5";
     NNBase.save_while_training := false;
     NNBase.modelcheck_opts := NNBase.modelcheck_opts demo_unbuilt;
     NNBase.save_weights_only := PyBool false;
     NNBase.earlystop_opts :=
       [("restore_best_weights", PyBool true); ("verbose", PyInt 1);
        ("patience", PyInt 0)];
     NNBase.patience := PyInt 0;
     NNBase.name_layers := true;
     NNBase.compile := true;
     NNBase.summary := true;
     NNBase.number_cat := 2;
     NNBase.mode := "plain";
     NNBase.alpha := 0.0001%R;
     NNBase.demixer_output_dim := None;
     NNBase._model := Some demo_model;
     NNBase._demixer := None |}.

Close Scope string_scope.

(** * Properties *)

(** ** Sums of lists of reals *)

Section Sums.

Open Scope R_scope.

Lemma sum1_cons (x : R) (v : vector) : K.sum1 (x :: v) = x + K.sum1 v.
Proof. reflexivity. Qed.

Lemma sum1_app (u v : vector) : K.sum1 (u ++ v) = K.sum1 u + K.sum1 v.
Proof.
  induction u as [|x u IH]; simpl.
  - lra.
  - rewrite IH. lra.
Qed.

Lemma sum1_map_ext {A : Type} (f g : A -> R) (l : list A) :
  (forall a, In a l -> f a = g a) ->
  K.sum1 (map f l) = K.sum1 (map g l).
Proof.
  intros Hfg. f_equal. apply map_ext_in. exact Hfg.
Qed.

Lemma sum1_map_div {A : Type} (f : A -> R) (c : R) (l : list A) :
  K.sum1 (map (fun a => f a / c) l) = K.sum1 (map f l) / c.
Proof.
  induction l as [|a l IH]; simpl.
  - unfold Rdiv. lra.
  - rewrite IH. unfold Rdiv. lra.
Qed.

Lemma sum1_map_mult {A : Type} (f : A -> R) (c : R) (l : list A) :
  K.sum1 (map (fun a => c * f a) l) = c * K.sum1 (map f l).
Proof.
  induction l as [|a l IH]; simpl.
  - lra.
  - rewrite IH. lra.
Qed.

Lemma sum1_map_plus {A : Type} (f g : A -> R) (l : list A) :
  K.sum1 (map (fun a => f a + g a) l) = K.sum1 (map f l) + K.sum1 (map g l).
Proof.
  induction l as [|a l IH]; simpl.
  - lra.
  - rewrite IH. lra.
Qed.

Lemma sum1_map_const {A : Type} (c : R) (l : list A) :
  K.sum1 (map (fun _ => c) l) = INR (length l) * c.
Proof.
  induction l as [|a l IH].
  - simpl. lra.
  - change (length (a :: l)) with (S (length l)).
    rewrite S_INR. simpl. rewrite IH. lra.
Qed.

Lemma sum1_nonneg (v : vector) : nonneg v -> 0 <= K.sum1 v.
Proof.
  induction 1 as [|x v Hx _ IH]; simpl; lra.
Qed.

Lemma sum1_pos (v : vector) :
  v <> [] -> Forall (fun x => 0 < x) v -> 0 < K.sum1 v.
Proof.
  intros Hne Hpos.
  destruct Hpos as [|x v Hx Hv]; [congruence|].
  assert (0 <= K.sum1 v).
  { apply sum1_nonneg. eapply Forall_impl; [|exact Hv].
    intros a Ha; simpl in Ha; lra. }
  simpl. lra.
Qed.

Lemma sum1_ge_entry (v : vector) (x : R) :
  nonneg v -> In x v -> x <= K.sum1 v.
Proof.
  induction 1 as [|y v Hy Hv IH]; intros Hin; [contradiction|].
  pose proof (sum1_nonneg Hv). simpl.
  destruct Hin as [-> | Hin]; [lra|]. specialize (IH Hin). lra.
Qed.

Lemma sum1_perm (u v : vector) : Permutation u v -> K.sum1 u = K.sum1 v.
Proof.
  induction 1; simpl; lra.
Qed.

(** Exchange of two finite sums. *)
Lemma sum1_swap {A B : Type} (f : A -> B -> R) (la : list A) (lb : list B) :
  K.sum1 (map (fun a => K.sum1 (map (fun b => f a b) lb)) la) =
  K.sum1 (map (fun b => K.sum1 (map (fun a => f a b) la)) lb).
Proof.
  induction la as [|a la IH]; simpl.
  - induction lb as [|b lb IHb]; simpl; [reflexivity|]. rewrite <- IHb. lra.
  - rewrite IH. rewrite <- sum1_map_plus. reflexivity.
Qed.

(** The entries of a list, read by index, sum to the sum of the list. *)
Lemma sum1_nth (v : vector) :
  K.sum1 (map (fun k => nth k v 0) (seq 0 (length v))) = K.sum1 v.
Proof.
  induction v as [|x v IH]; [reflexivity|].
  simpl. rewrite <- seq_shift, map_map. simpl. rewrite IH. reflexivity.
Qed.

End Sums.

(** ** Broadcasting *)

Section Broadcast.

Variables A B C : Type.
Variable f : A -> B -> C.

Lemma combine_map_r (g : A -> B) (xs : list A) :
  map (fun p => f (fst p) (snd p)) (combine xs (map g xs)) =
  map (fun x => f x (g x)) xs.
Proof.
  induction xs as [|x xs IH]; simpl; [reflexivity|]. now rewrite IH.
Qed.

(** An operand against one value per entry of itself. *)
Lemma broadcast_map_r (g : A -> B) (xs : list A) :
  K.broadcast f xs (map g xs) = map (fun x => f x (g x)) xs.
Proof.
  destruct xs as [|x1 [|x2 xs]]; try reflexivity.
  unfold K.broadcast.
  change (map g (x1 :: x2 :: xs)) with (g x1 :: g x2 :: map g xs).
  cbv iota beta.
  change (g x1 :: g x2 :: map g xs) with (map g (x1 :: x2 :: xs)).
  apply combine_map_r.
Qed.

(** An operand against an axis of length 1. *)
Lemma broadcast_one_r (xs : list A) (y : B) :
  K.broadcast f xs [y] = map (fun x => f x y) xs.
Proof.
  destruct xs as [|x1 [|x2 xs]]; reflexivity.
Qed.

Lemma broadcast_one_l (x : A) (ys : list B) :
  K.broadcast f [x] ys = map (f x) ys.
Proof. reflexivity. Qed.

(** Two operands of the same length are paired. *)
Lemma broadcast_same (xs : list A) (ys : list B) :
  length xs = length ys ->
  K.broadcast f xs ys = map (fun p => f (fst p) (snd p)) (combine xs ys).
Proof.
  intros Hlen.
  destruct xs as [|x1 [|x2 xs]]; destruct ys as [|y1 [|y2 ys]];
    simpl in Hlen; try discriminate; reflexivity.
Qed.

End Broadcast.

(** ** The vertex matrix *)

Section Vertices.

Open Scope R_scope.

Lemma to_vertices_normalize (raw : matrix) :
  to_vertices raw = map normalize (K.transpose (K.softmax raw)).
Proof.
  unfold to_vertices, K.div2, K.expand_dims_last, K.sum_axis1.
  rewrite map_map, broadcast_map_r.
  apply map_ext. intros row. apply broadcast_one_r.
Qed.

Lemma softmax_row_length (v : vector) : length (K.softmax_row v) = length v.
Proof. unfold K.softmax_row. now rewrite !length_map. Qed.

Lemma softmax_shape (raw : matrix) (m n : nat) :
  has_shape raw m n -> has_shape (K.softmax raw) m n.
Proof.
  intros [Hm Hn]. split.
  - unfold K.softmax. now rewrite length_map.
  - unfold K.softmax. apply Forall_map.
    eapply Forall_impl; [|exact Hn].
    intros r Hr. simpl. now rewrite softmax_row_length.
Qed.

Lemma ncols_shape (M : matrix) (m n : nat) :
  has_shape M m n -> (1 <= m)%nat -> K.ncols M = n.
Proof.
  intros [Hm Hn] Hpos. destruct M as [|r M]; simpl in *; [lia|].
  now inversion Hn.
Qed.

Lemma sum_exp_pos (v : vector) : v <> [] -> 0 < K.sum1 (map exp v).
Proof.
  intros Hne. apply sum1_pos.
  - destruct v; [congruence | discriminate].
  - apply Forall_map. apply Forall_forall. intros x _. apply exp_pos.
Qed.

(** The softmax of a row is a point of the simplex. *)
Lemma softmax_row_simplex (v : vector) : v <> [] -> simplex (K.softmax_row v).
Proof.
  intros Hne. pose proof (sum_exp_pos Hne) as HS. split.
  - unfold nonneg, K.softmax_row. apply Forall_map, Forall_map.
    apply Forall_forall. intros x _. simpl.
    apply Rlt_le, Rdiv_lt_0_compat; [apply exp_pos | exact HS].
  - unfold K.softmax_row. cbv zeta.
    rewrite (sum1_map_div (fun x => x)), map_id. field. lra.
Qed.

Lemma normalize_length (row : vector) : length (normalize row) = length row.
Proof. unfold normalize. now rewrite length_map. Qed.

Lemma to_vertices_columns (raw : matrix) (m n : nat) :
  has_shape raw m n -> (1 <= m)%nat ->
  to_vertices raw = map (fun j => normalize (raw_vertex raw j)) (seq 0 n).
Proof.
  intros Hshape Hm. rewrite to_vertices_normalize. unfold K.transpose.
  rewrite (ncols_shape (softmax_shape Hshape) Hm), map_map.
  apply map_ext. intros j. unfold raw_vertex, K.softmax. now rewrite map_map.
Qed.

Lemma to_vertices_shape (raw : matrix) (m n : nat) :
  has_shape raw m n -> (1 <= m)%nat -> has_shape (to_vertices raw) n m.
Proof.
  intros Hshape Hm. rewrite (to_vertices_columns Hshape Hm). split.
  - now rewrite length_map, length_seq.
  - apply Forall_map, Forall_forall. intros j _.
    rewrite normalize_length. unfold raw_vertex. rewrite length_map.
    apply Hshape.
Qed.

End Vertices.

(** ** The matrix product with the vertex matrix *)

Section Dot.

Open Scope R_scope.

Lemma map_fst_combine_same {A B : Type} (l : list A) (l' : list B) :
  length l = length l' -> map fst (combine l l') = l.
Proof.
  revert l'. induction l as [|a l IH]; intros [|b l'] Hlen;
    simpl in *; try discriminate; [reflexivity|].
  f_equal. apply IH. lia.
Qed.

Lemma nth_nonneg (v : vector) (k : nat) : nonneg v -> 0 <= nth k v 0.
Proof.
  intros Hv. destruct (Nat.lt_ge_cases k (length v)) as [Hk | Hk].
  - apply (proj1 (Forall_nth _ v) Hv). exact Hk.
  - rewrite nth_overflow by exact Hk. lra.
Qed.

Lemma dot_row_nonneg (V : matrix) (p : vector) :
  Forall nonneg V -> nonneg p -> nonneg (dot_row V p).
Proof.
  intros HV Hp. unfold nonneg, dot_row. apply Forall_map, Forall_forall.
  intros k _. apply sum1_nonneg. apply Forall_map, Forall_forall.
  intros [a row] Hin. simpl.
  apply Rmult_le_pos.
  - apply in_combine_l in Hin. exact (proj1 (Forall_forall _ p) Hp a Hin).
  - apply in_combine_r in Hin. apply nth_nonneg.
    exact (proj1 (Forall_forall _ V) HV row Hin).
Qed.

Lemma dot_row_sum (V : matrix) (n m : nat) (p : vector) :
  has_shape V n m -> (1 <= n)%nat ->
  Forall (fun row => K.sum1 row = 1) V ->
  length p = n ->
  K.sum1 (dot_row V p) = K.sum1 p.
Proof.
  intros HV Hn Hsum Hp. unfold dot_row.
  rewrite (ncols_shape HV Hn).
  rewrite (sum1_swap (fun k pv => fst pv * nth k (snd pv) 0)).
  destruct HV as [HlenV Hrows].
  rewrite (@sum1_map_ext _ _ (fun pv => fst pv)).
  - change (fun pv : R * vector => fst pv) with (@fst R vector).
    rewrite map_fst_combine_same; [reflexivity | now rewrite Hp].
  - intros [a row] Hin. simpl. apply in_combine_r in Hin.
    rewrite (sum1_map_mult (fun k => nth k row 0)).
    rewrite <- (proj1 (Forall_forall _ V) Hrows row Hin), sum1_nth.
    rewrite (proj1 (Forall_forall _ V) Hsum row Hin). lra.
Qed.

(** Rows of the simplex, multiplied with a matrix whose rows are in the
    simplex, give rows of the simplex. *)
Lemma dot_simplex (P V : matrix) (n m : nat) :
  has_shape V n m -> Forall simplex V ->
  Forall (fun p => length p = n /\ simplex p) P ->
  Forall (fun o => length o = m /\ simplex o) (map (dot_row V) P).
Proof.
  intros HV Hs HP. apply Forall_map.
  eapply Forall_impl; [|exact HP].
  intros p [Hlen [Hnn Hsum]]. simpl.
  assert (Hn : (1 <= n)%nat).
  { destruct p as [|x p]; simpl in *; [lra | lia]. }
  split; [|split].
  - unfold dot_row. rewrite length_map, length_seq. exact (ncols_shape HV Hn).
  - apply dot_row_nonneg; [|exact Hnn].
    eapply Forall_impl; [|exact Hs]. intros row Hrow. exact (proj1 Hrow).
  - rewrite (@dot_row_sum V n m p HV Hn); [exact Hsum | | exact Hlen].
    eapply Forall_impl; [|exact Hs]. intros row Hrow. exact (proj2 Hrow).
Qed.

End Dot.

(** ** The vertex matrix on 32-bit floats *)

Section Floats.

Open Scope R_scope.

Context `{E : F32.Exp}.
Hypothesis Hexp : F32.exp32_contract.

Lemma fold_max_ge (a : R) (t : vector) (x : R) :
  In x (a :: t) -> x <= fold_right Rmax a t.
Proof.
  induction t as [|b t IH]; simpl.
  - intros [-> | []]. lra.
  - intros [-> | [-> | Hin]].
    + eapply Rle_trans; [apply IH; now left | apply Rmax_r].
    + apply Rmax_l.
    + eapply Rle_trans; [apply IH; now right | apply Rmax_r].
Qed.

Lemma fold_max_in (a : R) (t : vector) : In (fold_right Rmax a t) (a :: t).
Proof.
  induction t as [|b t IH]; simpl; [now left|].
  destruct (Rle_dec b (fold_right Rmax a t)) as [Hle | Hnle].
  - rewrite Rmax_right by exact Hle.
    destruct IH as [H | H]; [left; exact H | right; right; exact H].
  - rewrite Rmax_left by lra. right; now left.
Qed.

Lemma row_max_ge (v : vector) (x : R) : In x v -> x <= F32.row_max v.
Proof.
  destruct v as [|a t]; [contradiction|]. apply fold_max_ge.
Qed.

Lemma row_max_in (v : vector) : v <> [] -> In (F32.row_max v) v.
Proof.
  destruct v as [|a t]; [congruence|]. intros _. apply fold_max_in.
Qed.

(** The exponentials of a row, after its largest entry has been
    subtracted: none is negative, and the one of the largest entry is 1. *)
Lemma exps_nonneg (v : vector) :
  nonneg (map (fun x => F32.exp32 (x - F32.row_max v)) v).
Proof.
  destruct Hexp as (_ & Hnn & _).
  apply Forall_map, Forall_forall. intros x Hx. simpl.
  apply Hnn. pose proof (row_max_ge v x Hx). lra.
Qed.

Lemma exps_sum_ge_1 (v : vector) :
  v <> [] -> 1 <= K.sum1 (map (fun x => F32.exp32 (x - F32.row_max v)) v).
Proof.
  intros Hne. apply sum1_ge_entry; [apply exps_nonneg|].
  assert (Hm : F32.exp32 (F32.row_max v - F32.row_max v) = 1).
  { replace (F32.row_max v - F32.row_max v) with 0 by lra. apply Hexp. }
  rewrite <- Hm.
  apply (in_map (fun x => F32.exp32 (x - F32.row_max v))).
  now apply row_max_in.
Qed.

Lemma f32_softmax_row_length (v : vector) :
  length (F32.softmax_row v) = length v.
Proof. unfold F32.softmax_row. now rewrite !length_map. Qed.

(** Also on floats the softmax of a row is a point of the simplex. *)
Lemma f32_softmax_row_simplex (v : vector) :
  v <> [] -> simplex (F32.softmax_row v).
Proof.
  intros Hne. pose proof (exps_sum_ge_1 Hne) as HS.
  pose proof (exps_nonneg v) as Hnn.
  unfold F32.softmax_row. cbv zeta. split.
  - unfold nonneg. apply Forall_map.
    eapply Forall_impl; [|exact Hnn].
    intros x Hx. simpl in *. unfold Rdiv.
    apply Rmult_le_pos; [exact Hx | apply Rlt_le, Rinv_0_lt_compat; lra].
  - rewrite (sum1_map_div (fun x => x)), map_id. field. lra.
Qed.

(** An entry that is at most 87 below the largest of its row has a positive
    softmax. *)
Lemma f32_softmax_row_nth_pos (v : vector) (c : nat) :
  (c < length v)%nat -> -87 <= nth c v 0 - F32.row_max v ->
  0 < nth c (F32.softmax_row v) 0.
Proof.
  intros Hc Hb.
  assert (Hne : v <> []) by (destruct v; simpl in Hc; [lia | discriminate]).
  pose proof (exps_sum_ge_1 Hne) as HS.
  unfold F32.softmax_row. cbv zeta. rewrite map_map.
  set (g := fun x => F32.exp32 (x - F32.row_max v) /
                     K.sum1 (map (fun y => F32.exp32 (y - F32.row_max v)) v)).
  rewrite nth_indep with (d' := g 0) by now rewrite length_map.
  rewrite map_nth. unfold g.
  apply Rdiv_lt_0_compat; [|lra].
  destruct Hexp as (_ & _ & _ & Hpos). apply Hpos. split; [exact Hb|].
  pose proof (row_max_ge v _ (nth_In v 0 Hc)). lra.
Qed.

Lemma f32_softmax_shape (raw : matrix) (m n : nat) :
  has_shape raw m n -> has_shape (F32.softmax raw) m n.
Proof.
  intros [Hm Hn]. unfold F32.softmax. split.
  - now rewrite length_map.
  - apply Forall_map. eapply Forall_impl; [|exact Hn].
    intros r Hr. simpl. now rewrite f32_softmax_row_length.
Qed.

Lemma f32_to_vertices_rows (raw : matrix) :
  F32.to_vertices raw
  = map (fun r => map (fun x => F32.div x (K.sum1 r)) r)
        (K.transpose (F32.softmax raw)).
Proof.
  unfold F32.to_vertices, K.expand_dims_last, K.sum_axis1.
  rewrite map_map, broadcast_map_r.
  apply map_ext. intros row. apply broadcast_one_r.
Qed.

Lemma div_zero (x : R) : F32.div x 0 = None.
Proof. unfold F32.div. destruct (Req_dec_T 0 0); [reflexivity | lra]. Qed.

Lemma div_nonzero (x d : R) : d <> 0 -> F32.div x d = Some (x / d).
Proof.
  intros Hd. unfold F32.div.
  destruct (Req_dec_T d 0); [contradiction | reflexivity].
Qed.

(** A row whose sum is not 0 is divided as over the reals. *)
Lemma div_normalize (r : vector) :
  K.sum1 r <> 0 ->
  map (fun x => F32.div x (K.sum1 r)) r = map Some (normalize r).
Proof.
  intros Hs. unfold normalize. rewrite map_map.
  apply map_ext. intros x. now apply div_nonzero.
Qed.

Lemma normalize_simplex_nonneg (row : vector) :
  nonneg row -> 0 < K.sum1 row -> simplex (normalize row).
Proof.
  intros Hnn HS. split.
  - unfold nonneg, normalize. apply Forall_map.
    eapply Forall_impl; [|exact Hnn].
    intros x Hx. simpl in *. unfold Rdiv.
    apply Rmult_le_pos; [exact Hx | apply Rlt_le, Rinv_0_lt_compat; lra].
  - unfold normalize.
    rewrite (sum1_map_div (fun x => x)), map_id. field. lra.
Qed.

Lemma f32_column_nonneg (raw : matrix) (m n c : nat) :
  has_shape raw m n -> (c < n)%nat ->
  nonneg (map (fun r => nth c r 0) (F32.softmax raw)).
Proof.
  intros [_ Hn] Hc. unfold F32.softmax. rewrite map_map.
  apply Forall_map. eapply Forall_impl; [|exact Hn].
  intros r Hr. simpl in *. apply nth_nonneg.
  apply f32_softmax_row_simplex.
  destruct r; simpl in *; [lia | discriminate].
Qed.

(** A column that does not underflow as a whole has a positive sum. *)
Lemma f32_column_sum_pos (raw : matrix) (m n c : nat) :
  has_shape raw m n -> (c < n)%nat -> F32.column_survives raw c ->
  0 < K.sum1 (map (fun r => nth c r 0) (F32.softmax raw)).
Proof.
  intros Hshape Hc (row & Hin & Hb).
  pose proof (f32_column_nonneg Hshape Hc) as Hnn.
  assert (Hlen : length row = n)
    by exact (proj1 (Forall_forall _ _) (proj2 Hshape) row Hin).
  assert (Hpos : 0 < nth c (F32.softmax_row row) 0)
    by (apply f32_softmax_row_nth_pos; [lia | exact Hb]).
  eapply Rlt_le_trans; [exact Hpos|].
  apply sum1_ge_entry; [exact Hnn|].
  unfold F32.softmax. rewrite map_map.
  apply (in_map (fun r => nth c (F32.softmax_row r) 0)). exact Hin.
Qed.

(** Without the underflow of a whole column, the vertex matrix on floats
    holds finite values only, and its rows are points of the simplex. *)
Lemma to_vertices_finite (raw : matrix) (m n : nat) :
  has_shape raw m n -> (1 <= m)%nat -> F32.no_column_underflow raw n ->
  exists V : matrix,
    F32.to_vertices raw = map (map Some) V /\
    has_shape V n m /\ Forall simplex V.
Proof.
  intros Hshape Hm Hcols.
  exists (map normalize (K.transpose (F32.softmax raw))).
  rewrite f32_to_vertices_rows. unfold K.transpose.
  rewrite (ncols_shape (f32_softmax_shape Hshape) Hm). rewrite !map_map.
  split; [|split].
  - apply map_ext_in. intros c Hc. apply in_seq in Hc.
    apply div_normalize.
    assert (Hlt : (c < n)%nat) by lia.
    pose proof (f32_column_sum_pos Hshape Hlt (Hcols c Hlt)). lra.
  - split.
    + now rewrite length_map, length_seq.
    + apply Forall_map, Forall_forall. intros c _.
      rewrite normalize_length, length_map.
      exact (proj1 (f32_softmax_shape Hshape)).
  - apply Forall_map, Forall_forall. intros c Hc. apply in_seq in Hc.
    assert (Hlt : (c < n)%nat) by lia.
    apply normalize_simplex_nonneg.
    + exact (f32_column_nonneg Hshape Hlt).
    + exact (f32_column_sum_pos Hshape Hlt (Hcols c Hlt)).
Qed.

(** When both rows put the second category 110 below the first, the second
    column of the softmax is 0 and the second vertex is 0 / 0. *)
Lemma underflow_vertices :
  F32.to_vertices [[0; -110]; [0; -110]]
  = [[Some 0.5; Some 0.5]; [None; None]].
Proof.
  destruct Hexp as (H0 & _ & Hunder & _).
  assert (Hrow : F32.softmax_row [0; -110] = [1; 0]).
  { unfold F32.softmax_row, F32.row_max. cbn [fold_right map].
    rewrite Rmax_right by lra.
    replace (0 - 0) with 0 by lra. replace (-110 - 0) with (-110) by lra.
    rewrite H0, (Hunder (-110)) by lra.
    cbn [K.sum1 fold_right map]. f_equal; [|f_equal]; field. }
  rewrite f32_to_vertices_rows. unfold F32.softmax. cbn [map].
  rewrite Hrow. cbn.
  replace (0 + (0 + 0)) with 0 by lra. rewrite !div_zero.
  rewrite !div_nonzero by lra.
  repeat f_equal; lra.
Qed.

End Floats.

(** The matrix product of finite rows with a finite matrix. *)
Lemma f32_sum_finite (p : vector) (V : matrix) (k : nat) :
  F32.sum1 (map (fun pv => F32.mul (fst pv) (nth k (snd pv) (Some 0%R)))
                (combine p (map (map Some) V)))
  = Some (K.sum1 (map (fun pv => (fst pv * nth k (snd pv) 0)%R) (combine p V))).
Proof.
  unfold F32.sum1, K.sum1.
  revert p. induction V as [|r V IH]; intros [|a p]; try reflexivity.
  cbn [combine map fst snd fold_right]. rewrite IH.
  rewrite (map_nth (@Some R)). reflexivity.
Qed.

Lemma f32_dot_finite (P V : matrix) :
  Forall (fun p => length p = length V) P ->
  F32.dot P (map (map Some) V) = Ok (map (map Some) (map (dot_row V) P)).
Proof.
  intros HP. unfold F32.dot. rewrite length_map.
  match goal with
  | |- context [forallb ?f P] => destruct (forallb f P) eqn:Hall
  end.
  - f_equal. rewrite map_map. apply map_ext. intros p.
    unfold dot_row. rewrite map_map.
    replace (F32.ncols (map (map Some) V)) with (K.ncols V)
      by (destruct V; simpl; [reflexivity | now rewrite length_map]).
    apply map_ext. intros k. apply f32_sum_finite.
  - apply Bool.not_true_iff_false in Hall. elim Hall.
    apply forallb_forall. intros p Hin.
    apply Nat.eqb_eq. exact (proj1 (Forall_forall _ P) HP p Hin).
Qed.

Lemma demo_exp_contract : @F32.exp32_contract demo_exp.
Proof.
  unfold F32.exp32_contract, demo_exp. cbn [F32.exp32].
  repeat split.
  - destruct (Rlt_dec 0 (-104)); [lra | apply exp_0].
  - intros x _. destruct (Rlt_dec x (-104)); [lra | apply Rlt_le, exp_pos].
  - intros x Hx. destruct (Rlt_dec x (-104)); [reflexivity | lra].
  - intros x Hx. destruct (Rlt_dec x (-104)); [lra | apply exp_pos].
Qed.

(** The first row of [[0; 1; 5]; [2; 0; -3]] keeps every column from
    underflowing. *)
Lemma demo_no_column_underflow :
  F32.no_column_underflow [[0; 1; 5]; [2; 0; -3]]%R 3.
Proof.
  intros c Hc. exists [0; 1; 5]%R. split; [now left|].
  unfold F32.row_max. cbn [fold_right].
  destruct c as [|[|[|c]]]; [| | |lia]; cbn [nth];
    unfold Rmax; repeat destruct Rle_dec; lra.
Qed.







(** ** [DeMixer.call] *)

(** C4. The loss term that [DeMixer.call] registers has the value
    [alpha * perimeterLoss(raw_fractions)], whatever the input batch: two
    calls on the same layer with two batches leave the same layer behind,
    with the same registered terms. *)
Theorem call_registers_perimeter_loss `{F : Framework}
    (self : DeMixer.t) (inputs inputs' : Input) :
  DeMixer.losses (fst (DeMixer.call self inputs)) =
    (DeMixer.losses self ++
     [(DeMixer.alpha self * perimeterLoss (DeMixer.raw_fractions self))%R])%list /\
  fst (DeMixer.call self inputs) = fst (DeMixer.call self inputs').
Proof.
  split; [|reflexivity].
  unfold DeMixer.call, DeMixer.losses, DeMixer.add_loss. cbn.
  now rewrite map_app.
Qed.

(** ** The perimeter *)

Section Perimeter.

Open Scope R_scope.

Lemma sqdist_nonneg (u v : vector) : 0 <= sqdist u v.
Proof.
  unfold sqdist. apply sum1_nonneg. apply Forall_map, Forall_forall.
  intros [a b] _. simpl. exact (Rle_0_sqr (a - b)).
Qed.

Lemma sqdist_sym (u v : vector) : sqdist u v = sqdist v u.
Proof.
  unfold sqdist. revert v.
  induction u as [|a u IH]; intros [|b v]; simpl; try reflexivity.
  rewrite IH. lra.
Qed.

Lemma sqdist_diag (u : vector) : sqdist u u = 0.
Proof.
  unfold sqdist. induction u as [|a u IH]; simpl; [reflexivity|].
  rewrite IH. lra.
Qed.

Lemma edge_sym (u v : vector) : edge u v = edge v u.
Proof. unfold edge. now rewrite sqdist_sym. Qed.

Lemma edge_diag (u : vector) : edge u u = R_sqrt.sqrt 1e-9.
Proof. unfold edge. now rewrite sqdist_diag, Rplus_0_l. Qed.

(** The pairwise squares that the broadcast subtraction computes. *)
Lemma pws_squares_rows (V : matrix) (d : nat) :
  Forall (fun r => length r = d) V ->
  K.sum_last (K.square (K.sub3 (K.expand_dims_0 V) (K.expand_dims_1 V))) =
  map (fun r => map (fun x => sqdist x r) V) V.
Proof.
  intros Hrows.
  unfold K.sub3, K.expand_dims_0, K.expand_dims_1, K.square, K.sum_last.
  rewrite broadcast_one_l, !map_map.
  apply map_ext_in. intros r Hr.
  rewrite broadcast_one_r, !map_map.
  apply map_ext_in. intros x Hx.
  rewrite broadcast_same, map_map.
  - reflexivity.
  - rewrite (proj1 (Forall_forall _ V) Hrows x Hx).
    now rewrite (proj1 (Forall_forall _ V) Hrows r Hr).
Qed.

(** The loss as a double sum over the rows of the vertex matrix. *)
Lemma perimeterLoss_rows (raw : matrix) (d : nat) :
  Forall (fun r => length r = d) (to_vertices raw) ->
  perimeterLoss raw =
  0.5 * K.sum1 (map (fun r => K.sum1 (map (fun x => edge x r) (to_vertices raw)))
                    (to_vertices raw)).
Proof.
  intros Hrows. unfold perimeterLoss. cbv zeta.
  rewrite (pws_squares_rows Hrows).
  unfold K.sqrt, K.add_scalar, K.sum_all. rewrite !map_map.
  f_equal. f_equal. apply map_ext. intros r. rewrite !map_map.
  f_equal. apply map_ext. intros x. unfold edge.
  rewrite Rmax_left; [reflexivity|].
  pose proof (sqdist_nonneg x r). lra.
Qed.

(** A sum over the entries of a list is the sum over its indices. *)
Lemma sum1_map_index {A : Type} (g : A -> R) (l : list A) (d : A) :
  K.sum1 (map g l) = K.sum1 (map (fun i => g (nth i l d)) (seq 0 (length l))).
Proof.
  induction l as [|a l IH]; [reflexivity|].
  simpl. rewrite <- seq_shift, map_map. simpl. now rewrite IH.
Qed.

Lemma sum1_map_index_from {A : Type} (g : A -> R) (l : list A) (d a : A) :
  K.sum1 (map (fun j => g (nth j (a :: l) d)) (seq 1 (length l))) =
  K.sum1 (map g l).
Proof.
  rewrite <- seq_shift, map_map. simpl. symmetry. apply sum1_map_index.
Qed.

(** For a symmetric summand, the ordered pairs are twice the unordered
    ones, and the diagonal. *)
Lemma ordered_sum_pair_sum {A : Type} (e : A -> A -> R) (l : list A) :
  (forall a b, e a b = e b a) ->
  K.sum1 (map (fun a => K.sum1 (map (fun b => e a b) l)) l) =
  2 * pair_sum e l + K.sum1 (map (fun a => e a a) l).
Proof.
  intros Hsym. induction l as [|x l IH]; [simpl; lra|].
  cbn [map K.sum1 fold_right pair_sum].
  change (fold_right Rplus 0) with K.sum1.
  rewrite (sum1_map_plus (fun a => e a x) (fun a => K.sum1 (map (e a) l))).
  change (fun a => K.sum1 (map (e a) l))
    with (fun a => K.sum1 (map (fun b => e a b) l)).
  rewrite IH.
  rewrite (@sum1_map_ext _ (fun a => e a x) (e x)) by (intros; apply Hsym).
  change (fun b => e x b) with (e x). lra.
Qed.

Lemma pair_sum_index {A : Type} (e : A -> A -> R) (l : list A) (d : A) :
  K.sum1 (map (fun i =>
            K.sum1 (map (fun j => e (nth i l d) (nth j l d))
                        (seq (S i) (length l - S i))))
          (seq 0 (length l))) =
  pair_sum e l.
Proof.
  induction l as [|a l IH]; [reflexivity|].
  cbn [length seq map K.sum1 fold_right pair_sum].
  change (fold_right Rplus 0) with K.sum1.
  replace (S (length l) - 1)%nat with (length l) by lia.
  change (nth 0 (a :: l) d) with a.
  rewrite (sum1_map_index_from (fun b => e a b) l d a).
  f_equal. rewrite <- IH, <- seq_shift, map_map.
  apply sum1_map_ext. intros i _.
  change (S (length l) - S (S i))%nat with (length l - S i)%nat.
  rewrite <- seq_shift, map_map. reflexivity.
Qed.

End Perimeter.

Section PerimeterLoss.

Open Scope R_scope.

Lemma ordered_pairs_rows (V : matrix) :
  ordered_pairs V (length V) =
  K.sum1 (map (fun r => K.sum1 (map (fun x => edge x r) V)) V).
Proof.
  unfold ordered_pairs.
  rewrite (sum1_map_index (fun r => K.sum1 (map (fun x => edge x r) V)) V []).
  apply sum1_map_ext. intros i _.
  rewrite (sum1_map_index (fun x => edge x (nth i V [])) V []).
  apply sum1_map_ext. intros j _. apply edge_sym.
Qed.

Lemma unordered_pairs_rows (V : matrix) :
  unordered_pairs V (length V) = pair_sum edge V.
Proof. unfold unordered_pairs. apply pair_sum_index. Qed.

Lemma ordered_unordered (V : matrix) :
  ordered_pairs V (length V) =
  2 * unordered_pairs V (length V) + INR (length V) * R_sqrt.sqrt 1e-9.
Proof.
  rewrite ordered_pairs_rows, unordered_pairs_rows.
  rewrite (@sum1_map_ext _ _ (fun r => K.sum1 (map (fun x => edge r x) V)))
    by (intros r _; apply sum1_map_ext; intros x _; apply edge_sym).
  rewrite (ordered_sum_pair_sum edge V edge_sym).
  rewrite (@sum1_map_ext _ _ (fun _ => R_sqrt.sqrt 1e-9))
    by (intros r _; apply edge_diag).
  now rewrite sum1_map_const.
Qed.

(** C3. [perimeterLoss] is half the sum of [sqrt(|v_i - v_j|^2 + 1e-9)]
    over all ordered pairs of rows of the vertex matrix, the pairs
    [(i, i)] included; this is the sum over the pairs [i < j] plus
    [number_cat * sqrt(1e-9) / 2]. *)
Theorem perimeterLoss_pairs (raw : matrix) (output_dim number_cat : nat) :
  has_shape raw output_dim number_cat -> (1 <= output_dim)%nat ->
  perimeterLoss raw = 0.5 * ordered_pairs (to_vertices raw) number_cat /\
  perimeterLoss raw =
    unordered_pairs (to_vertices raw) number_cat
    + INR number_cat * R_sqrt.sqrt 1e-9 / 2.
Proof.
  intros Hshape Hm.
  destruct (to_vertices_shape Hshape Hm) as [Hlen Hrows].
  assert (Hloss : perimeterLoss raw
                  = 0.5 * ordered_pairs (to_vertices raw) number_cat).
  { rewrite (perimeterLoss_rows _ Hrows), <- Hlen.
    now rewrite ordered_pairs_rows. }
  split; [exact Hloss|].
  rewrite Hloss, <- Hlen, ordered_unordered. lra.
Qed.

Lemma perimeterLoss_pairs_witness :
  perimeterLoss [[0; 1; 5]; [2; 0; -3]]
    = 0.5 * ordered_pairs (to_vertices [[0; 1; 5]; [2; 0; -3]]) 3 /\
  perimeterLoss [[0; 1; 5]; [2; 0; -3]]
    = unordered_pairs (to_vertices [[0; 1; 5]; [2; 0; -3]]) 3
      + INR 3 * R_sqrt.sqrt 1e-9 / 2.
Proof.
  apply (@perimeterLoss_pairs [[0; 1; 5]; [2; 0; -3]] 2 3).
  - split; [reflexivity | repeat constructor].
  - lia.
Defined.

(** *** Relabelling the categories *)

Lemma nth_seq_id {A : Type} (l : list A) (d : A) :
  map (fun i => nth i l d) (seq 0 (length l)) = l.
Proof.
  induction l as [|a l IH]; [reflexivity|].
  simpl. rewrite <- seq_shift, map_map. simpl. now rewrite IH.
Qed.

Lemma permuted_row_perm (perm : list nat) (r : vector) :
  Permutation perm (seq 0 (length r)) ->
  Permutation (map (fun j => nth j r 0) perm) r.
Proof.
  intros Hperm.
  apply perm_trans with (l' := map (fun j => nth j r 0) (seq 0 (length r))).
  - now apply Permutation_map.
  - rewrite nth_seq_id. apply Permutation_refl.
Qed.

(** The softmax of a relabelled row is the relabelled softmax of the row. *)
Lemma softmax_row_permute (perm : list nat) (r : vector) :
  Permutation perm (seq 0 (length r)) ->
  K.softmax_row (map (fun j => nth j r 0) perm) =
  map (fun j => nth j (K.softmax_row r) 0) perm.
Proof.
  intros Hperm. unfold K.softmax_row. cbv zeta.
  rewrite (sum1_perm (Permutation_map exp (permuted_row_perm r Hperm))).
  rewrite !map_map. apply map_ext_in. intros j Hj.
  assert (Hlt : (j < length r)%nat).
  { apply (Permutation_in _ Hperm), in_seq in Hj. lia. }
  set (scale := fun x => exp x / K.sum1 (map exp r)).
  rewrite (nth_indep (map scale r) 0 (scale 0)) by now rewrite length_map.
  now rewrite map_nth.
Qed.

Lemma permute_cols_shape (perm : list nat) (raw : matrix) (m n : nat) :
  has_shape raw m n -> Permutation perm (seq 0 n) ->
  has_shape (permute_cols perm raw) m n.
Proof.
  intros [Hm Hn] Hperm. unfold permute_cols. split.
  - now rewrite length_map.
  - apply Forall_map, Forall_forall. intros r _.
    rewrite length_map, (Permutation_length Hperm). apply length_seq.
Qed.

Lemma raw_vertex_permute (perm : list nat) (raw : matrix) (m n j : nat) :
  has_shape raw m n -> Permutation perm (seq 0 n) -> (j < n)%nat ->
  raw_vertex (permute_cols perm raw) j = raw_vertex raw (nth j perm 0%nat).
Proof.
  intros [_ Hn] Hperm Hj. unfold raw_vertex, permute_cols.
  rewrite map_map. apply map_ext_in. intros r Hr.
  pose proof (proj1 (Forall_forall _ raw) Hn r Hr) as Hlen. simpl in Hlen.
  rewrite softmax_row_permute by now rewrite Hlen.
  set (pick := fun i => nth i (K.softmax_row r) 0).
  rewrite nth_indep with (d' := pick 0%nat).
  - now rewrite map_nth.
  - rewrite length_map, (Permutation_length Hperm), length_seq. exact Hj.
Qed.

(** Relabelling the categories permutes the vertices. *)
Lemma to_vertices_permute (perm : list nat) (raw : matrix) (m n : nat) :
  has_shape raw m n -> (1 <= m)%nat -> Permutation perm (seq 0 n) ->
  to_vertices (permute_cols perm raw) =
  map (fun j => nth j (to_vertices raw) []) perm.
Proof.
  intros Hshape Hm Hperm.
  rewrite (to_vertices_columns (permute_cols_shape Hshape Hperm) Hm).
  rewrite (to_vertices_columns Hshape Hm).
  assert (Hlen : length perm = n)
    by now rewrite (Permutation_length Hperm), length_seq.
  transitivity (map (fun j => nth j (map (fun j => normalize (raw_vertex raw j))
                                        (seq 0 n)) [])
                    (map (fun i => nth i perm 0%nat) (seq 0 n)));
    [|now rewrite <- Hlen, nth_seq_id].
  rewrite map_map.
  apply map_ext_in. intros j Hj. apply in_seq in Hj.
  rewrite (raw_vertex_permute Hshape Hperm) by lia.
  set (vertex := fun j => normalize (raw_vertex raw j)).
  assert (Hin : (nth j perm 0 < n)%nat).
  { assert (In (nth j perm 0%nat) perm) by (apply nth_In; lia).
    apply (Permutation_in _ Hperm), in_seq in H. lia. }
  change (vertex (nth j perm 0%nat) = nth (nth j perm 0%nat) (map vertex (seq 0 n)) []).
  rewrite nth_indep with (d' := vertex 0%nat)
    by now rewrite length_map, length_seq.
  rewrite map_nth, seq_nth by exact Hin. reflexivity.
Qed.

Lemma to_vertices_permute_perm (perm : list nat) (raw : matrix) (m n : nat) :
  has_shape raw m n -> (1 <= m)%nat -> Permutation perm (seq 0 n) ->
  Permutation (to_vertices (permute_cols perm raw)) (to_vertices raw).
Proof.
  intros Hshape Hm Hperm.
  rewrite (to_vertices_permute Hshape Hm Hperm).
  apply perm_trans
    with (l' := map (fun j => nth j (to_vertices raw) []) (seq 0 n)).
  - now apply Permutation_map.
  - rewrite <- (proj1 (to_vertices_shape Hshape Hm)), nth_seq_id.
    apply Permutation_refl.
Qed.

(** The double sum over the rows does not depend on their order. *)
Lemma double_sum_perm (V V' : matrix) :
  Permutation V V' ->
  K.sum1 (map (fun r => K.sum1 (map (fun x => edge x r) V)) V) =
  K.sum1 (map (fun r => K.sum1 (map (fun x => edge x r) V')) V').
Proof.
  intros Hperm.
  rewrite (sum1_perm (Permutation_map _ Hperm)).
  apply sum1_map_ext. intros r _.
  apply sum1_perm. now apply Permutation_map.
Qed.

(** Over the real numbers, [perimeterLoss] does not change when the
    categories, the columns of the raw matrix, are permuted: the rows of the
    vertex matrix are permuted, and the sum over all ordered pairs of rows
    is the same sum in another order. *)
Lemma perimeterLoss_permutation_invariant
    (perm : list nat) (raw : matrix) (output_dim number_cat : nat) :
  has_shape raw output_dim number_cat -> (1 <= output_dim)%nat ->
  Permutation perm (seq 0 number_cat) ->
  Permutation (to_vertices (permute_cols perm raw)) (to_vertices raw) /\
  perimeterLoss (permute_cols perm raw) = perimeterLoss raw.
Proof.
  intros Hshape Hm Hperm.
  pose proof (to_vertices_permute_perm Hshape Hm Hperm) as HV.
  split; [exact HV|].
  rewrite (perimeterLoss_rows _ (proj2 (to_vertices_shape Hshape Hm))).
  rewrite (perimeterLoss_rows _
             (proj2 (to_vertices_shape (permute_cols_shape Hshape Hperm) Hm))).
  f_equal. now apply double_sum_perm.
Qed.

End PerimeterLoss.

(** ** The initial raw parameter matrix *)

Section Initializer.

Open Scope R_scope.

Lemma has_shapeb_spec (M : matrix) (m n : nat) :
  has_shapeb M m n = true <-> has_shape M m n.
Proof.
  unfold has_shapeb, has_shape.
  rewrite andb_true_iff, Nat.eqb_eq, forallb_forall, Forall_forall.
  split; intros [Hm Hn]; (split; [exact Hm|]); intros r Hr.
  - now apply Nat.eqb_eq, Hn.
  - now apply Nat.eqb_eq, Hn.
Qed.

Lemma eye_shape (n : nat) : has_shape (K.eye n) n n.
Proof.
  unfold K.eye. split.
  - now rewrite length_map, length_seq.
  - apply Forall_map, Forall_forall. intros i _.
    now rewrite length_map, length_seq.
Qed.

Lemma eye_entry (n i j : nat) :
  (i < n)%nat -> (j < n)%nat ->
  nth j (nth i (K.eye n) []) 0 = if (i =? j)%nat then 1 else 0.
Proof.
  intros Hi Hj. unfold K.eye.
  set (row := fun i => map (fun j => if (i =? j)%nat then 1 else 0) (seq 0 n)).
  rewrite (nth_indep (map row (seq 0 n)) [] (row 0%nat))
    by now rewrite length_map, length_seq.
  rewrite map_nth, seq_nth by exact Hi. unfold row.
  set (entry := fun j => if (0 + i =? j)%nat then 1 else 0).
  rewrite (nth_indep (map entry (seq 0 n)) 0 (entry 0%nat))
    by now rewrite length_map, length_seq.
  rewrite map_nth, seq_nth by exact Hj. reflexivity.
Qed.

Lemma slice_cols_shape (M : matrix) (m n c : nat) :
  has_shape M m n -> (c <= n)%nat -> has_shape (K.slice_cols M c) m c.
Proof.
  intros [Hm Hn] Hc. unfold K.slice_cols. split.
  - now rewrite length_map.
  - apply Forall_map. eapply Forall_impl; [|exact Hn].
    intros r Hr. simpl in *. apply firstn_length_le. lia.
Qed.

Lemma slice_cols_entry (M : matrix) (c i j : nat) :
  (i < length M)%nat -> (j < c)%nat ->
  nth j (nth i (K.slice_cols M c) []) 0 = nth j (nth i M []) 0.
Proof.
  intros Hi Hj. unfold K.slice_cols.
  rewrite (nth_indep (map (firstn c) M) [] (firstn c []))
    by now rewrite length_map.
  rewrite map_nth, nth_firstn.
  apply Nat.ltb_lt in Hj. now rewrite Hj.
Qed.

(** Construction of the layer when the initial value has the shape of the
    weight. *)
Lemma DeMixer_init_identity `{F : Framework}
    (output_dim number_cat : nat) (alpha : R) (architecture : PyObject) :
  add_weight_constant -> (number_cat <= output_dim)%nat ->
  exists self : DeMixer.t,
    DeMixer.__init__ output_dim number_cat alpha architecture = Ok self /\
    DeMixer.raw_fractions self = K.slice_cols (K.eye output_dim) number_cat.
Proof.
  intros Hweight Hle.
  pose proof (slice_cols_shape (eye_shape output_dim) Hle) as Hshape.
  unfold DeMixer.__init__.
  rewrite (Hweight _ _ _ (proj2 (has_shapeb_spec _ _ _) Hshape)).
  eexists. split; reflexivity.
Qed.

(** C8. A [DeMixer] with [number_cat <= output_dim] is constructed with a
    raw parameter matrix of shape [(output_dim, number_cat)] that holds the
    first [number_cat] columns of the identity matrix of size [output_dim]:
    1 at the entries [(i, i)] and 0 elsewhere. *)
Theorem DeMixer_init_raw_fractions `{F : Framework}
    (output_dim number_cat : nat) (alpha : R) (architecture : PyObject) :
  add_weight_constant -> (number_cat <= output_dim)%nat ->
  exists self : DeMixer.t,
    DeMixer.__init__ output_dim number_cat alpha architecture = Ok self /\
    DeMixer.raw_fractions self = K.slice_cols (K.eye output_dim) number_cat /\
    has_shape (DeMixer.raw_fractions self) output_dim number_cat /\
    forall i j : nat, (i < output_dim)%nat -> (j < number_cat)%nat ->
      nth j (nth i (DeMixer.raw_fractions self) []) 0
      = if (i =? j)%nat then 1 else 0.
Proof.
  intros Hweight Hle.
  destruct (DeMixer_init_identity alpha architecture Hweight Hle)
    as (self & Hinit & Hraw).
  exists self. split; [exact Hinit|]. split; [exact Hraw|]. rewrite Hraw.
  split.
  - exact (slice_cols_shape (eye_shape output_dim) Hle).
  - intros i j Hi Hj.
    rewrite slice_cols_entry by
      (try exact Hj; now rewrite (proj1 (eye_shape output_dim))).
    apply eye_entry; lia.
Qed.

Lemma DeMixer_init_raw_fractions_witness :
  exists self : @DeMixer.t demo_framework,
    @DeMixer.__init__ demo_framework 3 2 0.0001 demo_model = Ok self /\
    DeMixer.raw_fractions self = K.slice_cols (K.eye 3) 2 /\
    has_shape (DeMixer.raw_fractions self) 3 2 /\
    forall i j : nat, (i < 3)%nat -> (j < 2)%nat ->
      nth j (nth i (DeMixer.raw_fractions self) []) 0
      = if (i =? j)%nat then 1 else 0.
Proof.
  apply (@DeMixer_init_raw_fractions demo_framework 3 2 0.0001 demo_model).
  - intros m n value Hshape. simpl. now rewrite Hshape.
  - lia.
Defined.

End Initializer.

(** ** Dictionaries *)

Section Dictionaries.

Open Scope string_scope.

Lemma dict_set_has_key (d : dict) (k k' : string) (v : pyval) :
  has_key d k -> has_key (dict_set d k' v) k.
Proof.
  unfold has_key.
  induction d as [|[k0 v0] d IH]; intros [w Hw]; simpl in *; [discriminate|].
  destruct (k0 =? k') eqn:Hk'.
  - apply String.eqb_eq in Hk'. subst k0. simpl.
    revert Hw. destruct (k' =? k); intros Hw; [now eexists | now exists w].
  - simpl. revert Hw. destruct (k0 =? k); intros Hw; [now exists w|].
    apply IH. now exists w.
Qed.

Lemma dict_update_has_key (u d : dict) (k : string) :
  has_key d k -> has_key (dict_update d u) k.
Proof.
  unfold dict_update. revert d.
  induction u as [|[k' v'] u IH]; intros d Hd; simpl; [exact Hd|].
  apply IH. now apply dict_set_has_key.
Qed.

End Dictionaries.

(** ** Hyperparameter processing *)

Section ProcessHps.

Context `{F : Framework}.

Open Scope string_scope.

(** What [_process_hps] does with the mode, the two dimensions and the
    flags that the construction of the demixer reads. *)
Lemma _process_hps_spec (h : hps) :
  let D := _proc_arg (hp_output_dim h) 2%nat in
  let C := _proc_arg (hp_number_cat h) D in
  let m := lower (_proc_arg (hp_mode h) "demix") in
  match NNBase._process_hps h with
  | Raise e =>
      existsb (String.eqb m) NNBase.allowed_modes = false /\
      e = ValueError (NNBase.unrecognised_mode m)
  | Ok self =>
      existsb (String.eqb m) NNBase.allowed_modes = true /\
      NNBase.mode self = m /\
      NNBase.number_cat self = C /\
      NNBase.alpha self = _proc_arg (hp_alpha h) 0.0001%R /\
      NNBase.compile self = _proc_arg (hp_compile h) true /\
      NNBase._model self = None /\
      NNBase._demixer self = None /\
      NNBase.output_dim self = (if m =? "demix" then C else D) /\
      NNBase.demixer_output_dim self = (if m =? "demix" then Some D else None)
  end.
Proof.
  intros D C m. unfold NNBase._process_hps.
  repeat match goal with
  | |- context [dict_getitem (dict_update ?d ?u) ?k] =>
      let v := fresh "v" in
      let Hv := fresh "Hv" in
      destruct (@dict_update_has_key u d k) as [v Hv];
      [eexists; reflexivity | rewrite Hv; cbn [bind]]
  end.
  fold D. fold C. fold m.
  destruct (existsb (String.eqb m) NNBase.allowed_modes) eqn:Hallowed;
    cbn [negb].
  - destruct (m =? "demix") eqn:Hdemix; cbn; rewrite ?Hdemix; tauto.
  - split; reflexivity.
Qed.

Lemma allowed_modes_spec (m : string) :
  existsb (String.eqb m) NNBase.allowed_modes = true <->
  m = "demix" \/ m = "plain".
Proof.
  unfold NNBase.allowed_modes. cbn [existsb].
  rewrite !orb_true_iff, !String.eqb_eq. intuition discriminate.
Qed.

Lemma _process_hps_invalid (h : hps) :
  let m := lower (_proc_arg (hp_mode h) "demix") in
  m <> "demix" -> m <> "plain" ->
  NNBase._process_hps h = Raise (ValueError (NNBase.unrecognised_mode m)).
Proof.
  intros m Hd Hp. pose proof (_process_hps_spec h) as Hspec. cbv zeta in Hspec.
  fold m in Hspec.
  destruct (NNBase._process_hps h) as [self | e].
  - destruct Hspec as [Hallowed _].
    apply allowed_modes_spec in Hallowed. tauto.
  - destruct Hspec as [_ He]. now rewrite He.
Qed.

Lemma _process_hps_valid (h : hps) :
  let D := _proc_arg (hp_output_dim h) 2%nat in
  let C := _proc_arg (hp_number_cat h) D in
  let m := lower (_proc_arg (hp_mode h) "demix") in
  m = "demix" \/ m = "plain" ->
  exists self : NNBase.t,
    NNBase._process_hps h = Ok self /\
    NNBase.mode self = m /\
    NNBase.number_cat self = C /\
    NNBase.alpha self = _proc_arg (hp_alpha h) 0.0001%R /\
    NNBase.compile self = _proc_arg (hp_compile h) true /\
    NNBase._model self = None /\
    NNBase._demixer self = None /\
    NNBase.output_dim self = (if m =? "demix" then C else D) /\
    NNBase.demixer_output_dim self = (if m =? "demix" then Some D else None).
Proof.
  intros D C m Hm. pose proof (_process_hps_spec h) as Hspec.
  cbv zeta in Hspec. fold D C m in Hspec.
  destruct (NNBase._process_hps h) as [self | e].
  - exists self. split; [reflexivity|]. tauto.
  - destruct Hspec as [Hallowed _]. apply allowed_modes_spec in Hm.
    congruence.
Qed.

End ProcessHps.

(** ** Construction of the layer *)

Section Layer.

Context `{F : Framework} `{A : @NNBase.Architecture F}.

Lemma DeMixer_init_fields (output_dim number_cat : nat) (alpha : R)
    (architecture : PyObject) (d : DeMixer.t) :
  DeMixer.__init__ output_dim number_cat alpha architecture = Ok d ->
  DeMixer.output_dim d = output_dim /\
  DeMixer.number_cat d = number_cat /\
  DeMixer.alpha d = alpha /\
  DeMixer.architecture d = architecture.
Proof.
  unfold DeMixer.__init__.
  destruct (add_weight _ _ _) as [raw | e]; cbn [bind]; [|discriminate].
  intros Hd. injection Hd as <-. repeat split.
Qed.

End Layer.

(** ** Accessors, construction and dispatch *)

Section Dispatch.

Context `{F : Framework} `{A : @NNBase.Architecture F}.

Open Scope string_scope.

(** With [_model] set, [self.model] is that model. *)
Lemma model_set (self : NNBase.t) (m : PyObject) (depth : nat) :
  NNBase._model self = Some m -> NNBase.model (S depth) self = Ok m.
Proof.
  intros Hm. cbn [NNBase.model]. rewrite Hm. reflexivity.
Qed.

Lemma self_model_set (self : NNBase.t) (m : PyObject) :
  NNBase._model self = Some m -> (1 <= recursion_limit)%nat ->
  NNBase.self_model self = Ok m.
Proof.
  intros Hm Hdepth. unfold NNBase.self_model.
  destruct recursion_limit as [|depth]; [lia|]. now apply model_set.
Qed.

(** Without [_model], the evaluation of [self.model] does not end: the
    property asks [hasattr(self, '_model')], the hook [__getattr__] asks
    for [self.model]. *)
Lemma model_unset (self : NNBase.t) (depth : nat) :
  NNBase._model self = None -> NNBase.model depth self = Raise RecursionError.
Proof.
  intros Hm. induction depth as [|depth IH]; [reflexivity|].
  cbn [NNBase.model]. rewrite Hm, IH. reflexivity.
Qed.

(** With [_demixer] set, [self.demixer] is that demixer. *)
Lemma demixer_set (self : NNBase.t) (d : DeMixer.t) :
  NNBase._demixer self = Some d -> NNBase.demixer self = Ok (inl d).
Proof.
  intros Hd. unfold NNBase.demixer. rewrite Hd. reflexivity.
Qed.

(** Without [_demixer], the error of the property is replaced by the one
    of the hook. *)
Lemma demixer_unset (self : NNBase.t) (m : PyObject) :
  NNBase._model self = Some m -> NNBase._demixer self = None ->
  (1 <= recursion_limit)%nat ->
  py_hasattr m "_demixer" = false -> py_hasattr m "demixer" = false ->
  NNBase.demixer self =
  Raise (AttributeError
           ("'" ++ NNBase.__name__ ++ "' object has no attribute 'demixer', "
            ++ "check of underlying model failed")).
Proof.
  intros Hm Hd Hdepth Hprivate Hpublic. unfold NNBase.demixer.
  rewrite Hd, (self_model_set self Hm Hdepth).
  unfold NNBase.__getattr__. cbn [bind].
  rewrite Hprivate, Hpublic. reflexivity.
Qed.

Lemma append_prefix_inj (s a b : string) : s ++ a = s ++ b -> a = b.
Proof.
  induction s as [|c s IH]; simpl; intros H; [exact H|].
  injection H as H. now apply IH.
Qed.

(** [predict] goes to the object that the mode selects. *)
Lemma predict_demix (self : NNBase.t) (d : DeMixer.t) (args : Args) :
  NNBase.mode self = "demix" -> NNBase._demixer self = Some d ->
  NNBase.predict self args = Ok [NNBase.PredictCall (inl d) args].
Proof.
  intros Hmode Hd. unfold NNBase.predict.
  rewrite Hmode, (demixer_set self Hd). reflexivity.
Qed.

Lemma predict_plain (self : NNBase.t) (m : PyObject) (args : Args) :
  NNBase.mode self = "plain" -> NNBase._model self = Some m ->
  (1 <= recursion_limit)%nat ->
  NNBase.predict self args = Ok [NNBase.PredictCall (inr m) args].
Proof.
  intros Hmode Hm Hdepth. unfold NNBase.predict.
  rewrite Hmode, (self_model_set self Hm Hdepth). reflexivity.
Qed.

(** [fit] makes all its calls on one object. *)
Lemma fit_on (self : NNBase.t) (on : NNBase.target) (args : Args) :
  (if NNBase.mode self =? "demix"
   then NNBase.demixer self
   else m <- NNBase.self_model self ;; Ok (inr m)) = Ok on ->
  exists callbacks saved,
    NNBase.fit self args
    = Ok (NNBase.FitCall on args callbacks :: saved ++ [NNBase.GcCollect])%list /\
    Forall (fun ev => NNBase.on_target ev = Some on) saved.
Proof.
  intros Hon. unfold NNBase.fit. rewrite Hon. cbn [bind].
  eexists. eexists. split; [reflexivity|].
  destruct (NNBase.filepath self) as [path|]; [|constructor].
  destruct (negb (path =? "") && negb (NNBase.save_while_training self));
    [|constructor].
  destruct (truthy (NNBase.save_weights_only self)); repeat constructor.
Qed.

Lemma fit_demix (self : NNBase.t) (d : DeMixer.t) (args : Args) :
  NNBase.mode self = "demix" -> NNBase._demixer self = Some d ->
  exists callbacks saved,
    NNBase.fit self args
    = Ok (NNBase.FitCall (inl d) args callbacks
          :: saved ++ [NNBase.GcCollect])%list /\
    Forall (fun ev => NNBase.on_target ev = Some (inl d)) saved.
Proof.
  intros Hmode Hd. apply fit_on. now rewrite Hmode, (demixer_set self Hd).
Qed.

Lemma fit_plain (self : NNBase.t) (m : PyObject) (args : Args) :
  NNBase.mode self = "plain" -> NNBase._model self = Some m ->
  (1 <= recursion_limit)%nat ->
  exists callbacks saved,
    NNBase.fit self args
    = Ok (NNBase.FitCall (inr m) args callbacks
          :: saved ++ [NNBase.GcCollect])%list /\
    Forall (fun ev => NNBase.on_target ev = Some (inr m)) saved.
Proof.
  intros Hmode Hm Hdepth. apply fit_on.
  now rewrite Hmode, (self_model_set self Hm Hdepth).
Qed.

Lemma dispatches_demix (self : NNBase.t) (d : DeMixer.t) (args : Args) :
  NNBase.mode self = "demix" -> NNBase._demixer self = Some d ->
  NNBase.dispatches_to self (inl d) args.
Proof.
  intros Hmode Hd. split; [now apply fit_demix | now apply predict_demix].
Qed.

Lemma dispatches_plain (self : NNBase.t) (m : PyObject) (args : Args) :
  NNBase.mode self = "plain" -> NNBase._model self = Some m ->
  (1 <= recursion_limit)%nat ->
  NNBase.dispatches_to self (inr m) args.
Proof.
  intros Hmode Hm Hdepth. split; [now apply fit_plain | now apply predict_plain].
Qed.

(** Construction in demix mode: after the hyperparameters and the inner
    model, the outcome is the one of the construction of the layer. *)
Lemma init_demix (h : hps) (build : NNBase.t -> PyObject) :
  let D := _proc_arg (hp_output_dim h) 2%nat in
  let C := _proc_arg (hp_number_cat h) D in
  NNBase.stores_model build ->
  (1 <= recursion_limit)%nat ->
  lower (_proc_arg (hp_mode h) "demix") = "demix" ->
  exists inner : NNBase.t,
    NNBase._process_hps h = Ok inner /\
    NNBase.mode inner = "demix" /\
    NNBase.output_dim inner = C /\
    NNBase.__init__ h
    = (d <- DeMixer.__init__ D C (NNBase.alpha inner) (build inner) ;;
       Ok (NNBase.set__demixer (NNBase.set__model inner (build inner)) d,
           if NNBase.compile inner
           then [NNBase.CompileCall (inl d) (NNBase.compile_opts inner)]
           else [])).
Proof.
  intros D C Hbuild Hdepth Hmode.
  destruct (_process_hps_valid h) as (inner & Hinner & Hm & HC & _ & _ & _ & _
                                      & Hout & Hdout);
    [now left|].
  rewrite Hmode in *. cbn in Hout, Hdout. fold D in Hdout. fold D C in Hout, HC.
  exists inner. repeat (split; [assumption|]).
  unfold NNBase.__init__, NNBase.ArchBase__init__.
  rewrite Hinner. cbn [bind]. rewrite (Hbuild inner). cbn [bind].
  cbn [NNBase.mode NNBase.set__model]. rewrite Hm.
  cbn [String.eqb Ascii.eqb Bool.eqb].
  unfold NNBase._construct_demixer.
  cbn [NNBase.demixer_output_dim NNBase.set__model]. rewrite Hdout.
  cbn [bind].
  rewrite (self_model_set (NNBase.set__model inner (build inner))
             eq_refl Hdepth).
  cbn [bind NNBase.number_cat NNBase.alpha NNBase.set__model].
  rewrite HC.
  destruct (DeMixer.__init__ D C (NNBase.alpha inner) (build inner))
    as [d | e]; cbn [bind]; [|reflexivity].
  unfold NNBase._compile_demixer.
  cbn [NNBase.compile NNBase.set__demixer NNBase.set__model].
  destruct (NNBase.compile inner); [|reflexivity].
  rewrite (demixer_set
             (NNBase.set__demixer (NNBase.set__model inner (build inner)) d)
             eq_refl).
  reflexivity.
Qed.

(** What a construction in demix mode leaves behind, when it succeeds. *)
Lemma init_demix_built (h : hps) (build : NNBase.t -> PyObject)
    (self : NNBase.t) (events : list NNBase.event) :
  let D := _proc_arg (hp_output_dim h) 2%nat in
  let C := _proc_arg (hp_number_cat h) D in
  NNBase.stores_model build ->
  (1 <= recursion_limit)%nat ->
  lower (_proc_arg (hp_mode h) "demix") = "demix" ->
  NNBase.__init__ h = Ok (self, events) ->
  exists (inner : NNBase.t) (d : DeMixer.t),
    NNBase._process_hps h = Ok inner /\
    NNBase.mode self = "demix" /\
    NNBase._model self = Some (build inner) /\
    NNBase._demixer self = Some d /\
    DeMixer.output_dim d = D /\
    DeMixer.number_cat d = C /\
    DeMixer.architecture d = build inner /\
    Forall (fun ev => NNBase.on_target ev = Some (inl d)) events.
Proof.
  intros D C Hbuild Hdepth Hmode Hinit.
  destruct (init_demix h Hbuild Hdepth Hmode)
    as (inner & Hinner & Hm & _ & Heq).
  fold D C in Heq. rewrite Heq in Hinit.
  destruct (DeMixer.__init__ D C (NNBase.alpha inner) (build inner))
    as [d | e] eqn:Hd; cbn [bind] in Hinit; [|discriminate].
  injection Hinit as <- <-.
  destruct (DeMixer_init_fields _ _ _ _ Hd) as (HdD & HdC & _ & Harch).
  exists inner, d. repeat (split; [first [assumption | reflexivity]|]).
  destruct (NNBase.compile inner); repeat constructor.
Qed.

(** Construction in plain mode. *)
Lemma init_plain (h : hps) (build : NNBase.t -> PyObject) :
  NNBase.stores_model build ->
  lower (_proc_arg (hp_mode h) "demix") = "plain" ->
  exists inner : NNBase.t,
    NNBase._process_hps h = Ok inner /\
    NNBase.mode inner = "plain" /\
    NNBase.output_dim inner = _proc_arg (hp_output_dim h) 2%nat /\
    NNBase._demixer inner = None /\
    NNBase.__init__ h = Ok (NNBase.set__model inner (build inner), []).
Proof.
  intros Hbuild Hmode.
  destruct (_process_hps_valid h) as (inner & Hinner & Hm & _ & _ & _ & _
                                      & Hdemixer & Hout & _);
    [now right|].
  rewrite Hmode in *. cbn in Hout.
  exists inner. repeat (split; [assumption|]).
  unfold NNBase.__init__, NNBase.ArchBase__init__.
  rewrite Hinner. cbn [bind]. rewrite (Hbuild inner). cbn [bind].
  cbn [NNBase.mode NNBase.set__model]. rewrite Hm. reflexivity.
Qed.

End Dispatch.

Open Scope string_scope.

(** C6. A mode whose lowercase form is none of ['demix'] and ['plain'] makes
    [_process_hps], and with it the construction, raise a [ValueError] that
    names the lowered mode and the list [['demix', 'plain']]; a mode whose
    lowercase form is one of the two is accepted and stored lowered. *)
Theorem mode_validation `{F : Framework} `{A : @NNBase.Architecture F}
    (h : hps) (given : string) :
  hp_mode h = Some given ->
  (lower given <> "demix" -> lower given <> "plain" ->
   NNBase._process_hps h
   = Raise (ValueError ("Unrecognised mode '" ++ lower given
                        ++ "'. Valid options are ['demix', 'plain'].")) /\
   NNBase.__init__ h
   = Raise (ValueError ("Unrecognised mode '" ++ lower given
                        ++ "'. Valid options are ['demix', 'plain']."))) /\
  (lower given = "demix" \/ lower given = "plain" ->
   exists self : NNBase.t,
     NNBase._process_hps h = Ok self /\ NNBase.mode self = lower given).
Proof.
  intros Hgiven. split.
  - intros Hd Hp.
    pose proof (_process_hps_invalid h) as Hinvalid. cbv zeta in Hinvalid.
    rewrite Hgiven in Hinvalid. cbn [_proc_arg] in Hinvalid.
    specialize (Hinvalid Hd Hp).
    unfold NNBase.__init__, NNBase.ArchBase__init__.
    rewrite Hinvalid. split; reflexivity.
  - intros Hvalid.
    pose proof (_process_hps_valid h) as Hok. cbv zeta in Hok.
    rewrite Hgiven in Hok. cbn [_proc_arg] in Hok.
    destruct (Hok Hvalid) as (self & Hself & Hmode & _).
    exists self. split; assumption.
Qed.

Lemma mode_validation_witness :
  @NNBase.__init__ demo_framework demo_architecture (with_mode no_hps "Invalid")
  = Raise (ValueError
             "Unrecognised mode 'invalid'. Valid options are ['demix', 'plain'].") /\
  exists self : @NNBase.t demo_framework,
    @NNBase._process_hps demo_framework (with_mode no_hps "DeMix") = Ok self /\
    NNBase.mode self = "demix".
Proof.
  split.
  - apply (@mode_validation demo_framework demo_architecture
             (with_mode no_hps "Invalid") "Invalid" eq_refl);
      simpl; discriminate.
  - apply (@mode_validation demo_framework demo_architecture
             (with_mode no_hps "DeMix") "DeMix" eq_refl).
    left. reflexivity.
Defined.

(** C5. In demix mode, with the requested output dimension [D] and the
    number of categories [C] (by default [D]), the inner model is built for
    the output width [C]; the construction succeeds when a weight of shape
    [(D, C)] can be created from the identity, and whenever it succeeds a
    [DeMixer] of output width [D] wraps the inner model, and [fit] and
    [predict] call the [DeMixer]. In plain mode the inner model is built for
    the width [D], no [DeMixer] is made, and [fit] and [predict] call the
    inner model. *)
Theorem mode_dispatch `{F : Framework} `{A : @NNBase.Architecture F}
    (h : hps) (build : NNBase.t -> PyObject) (args : Args) :
  let D := _proc_arg (hp_output_dim h) 2%nat in
  let C := _proc_arg (hp_number_cat h) D in
  NNBase.stores_model build -> (1 <= recursion_limit)%nat ->
  (lower (_proc_arg (hp_mode h) "demix") = "demix" ->
   exists inner : NNBase.t,
     NNBase._process_hps h = Ok inner /\
     NNBase.output_dim inner = C /\
     (add_weight_constant -> (C <= D)%nat ->
      exists self events, NNBase.__init__ h = Ok (self, events)) /\
     (forall self events,
        NNBase.__init__ h = Ok (self, events) ->
        exists d : DeMixer.t,
          NNBase._model self = Some (build inner) /\
          NNBase._demixer self = Some d /\
          DeMixer.output_dim d = D /\
          DeMixer.number_cat d = C /\
          DeMixer.architecture d = build inner /\
          NNBase.dispatches_to self (inl d) args)) /\
  (lower (_proc_arg (hp_mode h) "demix") = "plain" ->
   exists inner self : NNBase.t,
     NNBase._process_hps h = Ok inner /\
     NNBase.output_dim inner = D /\
     NNBase.__init__ h = Ok (self, []) /\
     NNBase._model self = Some (build inner) /\
     NNBase._demixer self = None /\
     NNBase.dispatches_to self (inr (build inner)) args).
Proof.
  intros D C Hbuild Hdepth. split.
  - intros Hmode.
    destruct (init_demix h Hbuild Hdepth Hmode)
      as (inner & Hinner & Hm & Hout & Heq).
    exists inner. split; [exact Hinner|]. split; [exact Hout|]. split.
    + intros Hweight Hle.
      destruct (DeMixer_init_identity (NNBase.alpha inner) (build inner)
                  Hweight Hle) as (d & Hd & _).
      fold D C in Heq. rewrite Heq, Hd. cbn [bind]. eauto.
    + intros self events Hinit.
      destruct (init_demix_built h Hbuild Hdepth Hmode Hinit)
        as (inner' & d & Hinner' & Hms & Hmodel & Hsd & HdD & HdC & Harch & _).
      rewrite Hinner in Hinner'. injection Hinner' as <-.
      exists d. repeat (split; [assumption|]).
      now apply dispatches_demix.
  - intros Hmode.
    destruct (init_plain h Hbuild Hmode)
      as (inner & Hinner & Hm & Hout & Hdemixer & Hinit).
    exists inner, (NNBase.set__model inner (build inner)).
    repeat (split; [first [assumption | reflexivity]|]).
    now apply dispatches_plain.
Qed.

Lemma mode_dispatch_witness :
  (exists (inner self : @NNBase.t demo_framework) (d : DeMixer.t)
          (events : list NNBase.event),
     NNBase._process_hps (with_dims (with_mode no_hps "DeMix") 3 2) = Ok inner /\
     NNBase.output_dim inner = 2%nat /\
     @NNBase.__init__ demo_framework demo_architecture
       (with_dims (with_mode no_hps "DeMix") 3 2) = Ok (self, events) /\
     NNBase._model self = Some demo_model /\
     NNBase._demixer self = Some d /\
     DeMixer.output_dim d = 3%nat /\
     DeMixer.number_cat d = 2%nat /\
     DeMixer.architecture d = demo_model /\
     @NNBase.dispatches_to demo_framework demo_architecture self (inl d) tt) /\
  (exists inner self : @NNBase.t demo_framework,
     NNBase._process_hps (with_dims (with_mode no_hps "Plain") 3 2) = Ok inner /\
     NNBase.output_dim inner = 3%nat /\
     @NNBase.__init__ demo_framework demo_architecture
       (with_dims (with_mode no_hps "Plain") 3 2) = Ok (self, []) /\
     NNBase._model self = Some demo_model /\
     NNBase._demixer self = None /\
     @NNBase.dispatches_to demo_framework demo_architecture
       self (inr demo_model) tt).
Proof.
  split.
  - destruct (proj1 (@mode_dispatch demo_framework demo_architecture
                       (with_dims (with_mode no_hps "DeMix") 3 2)
                       (fun _ => demo_model) tt
                       (fun self => eq_refl)
                       (le_S_n 1 1000 ltac:(simpl; lia)))
                    eq_refl)
      as (inner & Hinner & Hout & Hex & Hall).
    destruct Hex as (self & events & Hinit).
    + intros m n value Hshape. simpl. now rewrite Hshape.
    + simpl. lia.
    + destruct (Hall self events Hinit) as (d & H).
      exists inner, self, d, events. tauto.
  - apply (proj2 (@mode_dispatch demo_framework demo_architecture
                    (with_dims (with_mode no_hps "Plain") 3 2)
                    (fun _ => demo_model) tt
                    (fun self => eq_refl)
                    (le_S_n 1 1000 ltac:(simpl; lia)))).
    reflexivity.
Defined.

(** C10. Without a mode among the hyperparameters the mode is ['demix']:
    the construction ends with the construction of a [DeMixer] around the
    inner model, it succeeds when a weight of shape [(D, C)] can be created
    from the identity, and whenever it succeeds [fit] and [predict] call the
    [DeMixer]. *)
Theorem default_mode_is_demix `{F : Framework} `{A : @NNBase.Architecture F}
    (h : hps) (build : NNBase.t -> PyObject) (args : Args) :
  let D := _proc_arg (hp_output_dim h) 2%nat in
  let C := _proc_arg (hp_number_cat h) D in
  hp_mode h = None ->
  NNBase.stores_model build -> (1 <= recursion_limit)%nat ->
  exists inner : NNBase.t,
    NNBase._process_hps h = Ok inner /\
    NNBase.mode inner = "demix" /\
    (add_weight_constant -> (C <= D)%nat ->
     exists self events, NNBase.__init__ h = Ok (self, events)) /\
    (forall self events,
       NNBase.__init__ h = Ok (self, events) ->
       exists d : DeMixer.t,
         NNBase.mode self = "demix" /\
         NNBase._model self = Some (build inner) /\
         NNBase._demixer self = Some d /\
         DeMixer.architecture d = build inner /\
         NNBase.dispatches_to self (inl d) args).
Proof.
  intros D C Hnone Hbuild Hdepth.
  assert (Hmode : lower (_proc_arg (hp_mode h) "demix") = "demix")
    by now rewrite Hnone.
  destruct (init_demix h Hbuild Hdepth Hmode)
    as (inner & Hinner & Hm & _ & Heq).
  exists inner. split; [exact Hinner|]. split; [exact Hm|]. split.
  - intros Hweight Hle.
    destruct (DeMixer_init_identity (NNBase.alpha inner) (build inner)
                Hweight Hle) as (d & Hd & _).
    fold D C in Heq. rewrite Heq, Hd. cbn [bind]. eauto.
  - intros self events Hinit.
    destruct (init_demix_built h Hbuild Hdepth Hmode Hinit)
      as (inner' & d & Hinner' & Hms & Hmodel & Hsd & _ & _ & Harch & _).
    rewrite Hinner in Hinner'. injection Hinner' as <-.
    exists d. repeat (split; [assumption|]).
    now apply dispatches_demix.
Qed.

Lemma default_mode_is_demix_witness :
  exists (inner self : @NNBase.t demo_framework) (d : DeMixer.t)
         (events : list NNBase.event),
    NNBase._process_hps no_hps = Ok inner /\
    NNBase.mode inner = "demix" /\
    @NNBase.__init__ demo_framework demo_architecture no_hps
    = Ok (self, events) /\
    NNBase.mode self = "demix" /\
    NNBase._model self = Some demo_model /\
    NNBase._demixer self = Some d /\
    DeMixer.architecture d = demo_model /\
    @NNBase.dispatches_to demo_framework demo_architecture self (inl d) tt.
Proof.
  destruct (@default_mode_is_demix demo_framework demo_architecture
              no_hps (fun _ => demo_model) tt
              eq_refl (fun self => eq_refl)
              (le_S_n 1 1000 ltac:(simpl; lia)))
    as (inner & Hinner & Hm & Hex & Hall).
  destruct Hex as (self & events & Hinit).
  - intros m n value Hshape. simpl. now rewrite Hshape.
  - simpl. lia.
  - destruct (Hall self events Hinit) as (d & H).
    exists inner, self, d, events. tauto.
Defined.

(** C9. The accessors on an object that lacks the component. Without
    [_model], [self.model] ends in a [RecursionError] at every recursion
    limit. With a model but without [_demixer], [self.demixer] raises the
    [AttributeError] of [__getattr__], which names the class and the
    attribute ['demixer']; the message of the property, [no underlying
    demixer], is not the one raised. *)
Theorem accessors_without_component `{F : Framework}
    `{A : @NNBase.Architecture F} (self : NNBase.t) :
  (NNBase._model self = None ->
   forall depth : nat, NNBase.model depth self = Raise RecursionError) /\
  (forall m : PyObject,
     NNBase._model self = Some m -> NNBase._demixer self = None ->
     (1 <= recursion_limit)%nat ->
     py_hasattr m "_demixer" = false -> py_hasattr m "demixer" = false ->
     NNBase.demixer self
     = Raise (AttributeError
                ("'" ++ NNBase.__name__
                 ++ "' object has no attribute 'demixer', check of underlying model failed"))
     /\ NNBase.demixer self
        <> Raise (AttributeError
                    ("'" ++ NNBase.__name__
                     ++ "' object has no underlying demixer"))).
Proof.
  split.
  - intros Hm depth. now apply model_unset.
  - intros m Hm Hd Hdepth Hprivate Hpublic.
    rewrite (demixer_unset self Hm Hd Hdepth Hprivate Hpublic).
    split; [reflexivity|].
    intros Heq. injection Heq as Heq.
    apply append_prefix_inj in Heq. discriminate Heq.
Qed.

Lemma accessors_without_component_witness :
  (forall depth : nat,
     @NNBase.model demo_framework demo_architecture depth demo_unbuilt
     = Raise RecursionError) /\
  @NNBase.demixer demo_framework demo_architecture demo_built
  = Raise (AttributeError
             "'DNN' object has no attribute 'demixer', check of underlying model failed")
  /\ @NNBase.demixer demo_framework demo_architecture demo_built
     <> Raise (AttributeError "'DNN' object has no underlying demixer").
Proof.
  split.
  - apply (proj1 (@accessors_without_component
                    demo_framework demo_architecture demo_unbuilt)).
    reflexivity.
  - apply (proj2 (@accessors_without_component
                    demo_framework demo_architecture demo_built) demo_model);
      try reflexivity.
    simpl. lia.
Defined.

(** ** The embedding on small inputs *)

Section Examples.

Open Scope R_scope.

Example transpose_2x3 :
  K.transpose [[1; 2; 3]; [4; 5; 6]] = [[1; 4]; [2; 5]; [3; 6]].
Proof. reflexivity. Qed.

Example eye_first_columns :
  K.slice_cols (K.eye 3) 2 = [[1; 0]; [0; 1]; [0; 0]].
Proof. reflexivity. Qed.

(** The slice [[:, :3]] of the identity of size 2 has 2 columns, not 3. *)
Example eye_slice_beyond : K.slice_cols (K.eye 2) 3 = K.eye 2.
Proof. reflexivity. Qed.

Example to_vertices_zero :
  to_vertices [[0; 0]; [0; 0]] = [[0.5; 0.5]; [0.5; 0.5]].
Proof.
  unfold to_vertices, K.softmax, K.softmax_row, K.transpose, K.div2,
    K.expand_dims_last, K.sum_axis1.
  cbn. rewrite exp_0.
  repeat (f_equal; try lra).
Qed.

Example dot_2x2 : K.dot [[0.5; 0.5]] [[1; 0]; [0; 1]] = Ok [[0.5; 0.5]].
Proof.
  unfold K.dot. cbn. repeat (f_equal; try lra).
Qed.

Example dot_mismatch : K.dot [[1; 0; 0]] [[1; 0]; [0; 1]] = Raise InvalidArgumentError.
Proof. reflexivity. Qed.

Open Scope string_scope.

Example lower_mixed : lower "DeMix" = "demix".
Proof. reflexivity. Qed.

Example unrecognised_mode_text :
  NNBase.unrecognised_mode "both"
  = "Unrecognised mode 'both'. Valid options are ['demix', 'plain'].".
Proof. reflexivity. Qed.

Example _process_hps_plain :
  @NNBase._process_hps demo_framework (with_mode no_hps "plain")
  = Ok demo_unbuilt.
Proof. reflexivity. Qed.

Example init_plain_built :
  @NNBase.__init__ demo_framework demo_architecture (with_mode no_hps "plain")
  = Ok (demo_built, []).
Proof. reflexivity. Qed.

(** [fit] on an object whose [_construct_model] stored no model. *)
Example fit_without_model :
  @NNBase.fit demo_framework demo_architecture demo_unbuilt tt
  = Raise RecursionError.
Proof.
  unfold NNBase.fit, NNBase.self_model. cbn [NNBase.mode demo_unbuilt].
  cbn [String.eqb Ascii.eqb Bool.eqb].
  now rewrite model_unset.
Qed.

(** The construction in demix mode with such a [_construct_model]. *)
Example init_without_model :
  @NNBase.__init__ demo_framework bare_architecture no_hps
  = Raise RecursionError.
Proof.
  unfold NNBase.__init__, NNBase.ArchBase__init__.
  destruct (@_process_hps_valid demo_framework no_hps)
    as (inner & Hinner & Hm & _ & _ & _ & Hmodel & _ & _ & Hdout);
    [now left|].
  rewrite Hinner. cbn [bind bare_architecture NNBase._construct_model].
  rewrite Hm. cbn [lower _proc_arg no_hps hp_mode].
  cbn [String.eqb Ascii.eqb Bool.eqb].
  unfold NNBase._construct_demixer, NNBase.self_model. rewrite Hdout.
  cbn [lower _proc_arg no_hps hp_mode String.eqb Ascii.eqb Bool.eqb bind].
  now rewrite model_unset.
Qed.

End Examples.

(** * Further properties of the demixing layer *)

Section Fractions.

Open Scope R_scope.

Lemma shape_rows_nonempty (M : matrix) (m n : nat) :
  has_shape M m n -> (1 <= n)%nat -> Forall (fun r => r <> []) M.
Proof.
  intros [_ Hn] Hpos. eapply Forall_impl; [|exact Hn].
  intros r Hr Hnil. subst r. simpl in Hr. lia.
Qed.

(** [getFractions]: every row of the softmax of the raw matrix is a
    probability distribution over the categories, for every raw matrix
    with at least one column. *)
Theorem getFractions_rows_simplex `{F : Framework} (self : DeMixer.t) :
  has_shape (DeMixer.raw_fractions self)
            (DeMixer.output_dim self) (DeMixer.number_cat self) ->
  (1 <= DeMixer.number_cat self)%nat ->
  has_shape (DeMixer.getFractions self)
            (DeMixer.output_dim self) (DeMixer.number_cat self) /\
  Forall simplex (DeMixer.getFractions self).
Proof.
  intros Hshape Hn. unfold DeMixer.getFractions. split.
  - now apply softmax_shape.
  - unfold K.softmax. apply Forall_map.
    pose proof (shape_rows_nonempty Hshape Hn) as Hne.
    eapply Forall_impl; [|exact Hne].
    intros r Hr. now apply softmax_row_simplex.
Qed.

Lemma getFractions_rows_simplex_witness :
  has_shape (DeMixer.getFractions demo_demixer) 2 3 /\
  Forall simplex (DeMixer.getFractions demo_demixer).
Proof.
  apply (@getFractions_rows_simplex demo_framework demo_demixer).
  - split; [reflexivity | repeat constructor].
  - simpl. lia.
Defined.

Lemma nth_map_seq {A : Type} (f : nat -> A) (n i : nat) (d : A) :
  (i < n)%nat -> nth i (map f (seq 0 n)) d = f i.
Proof.
  intros Hi.
  rewrite (nth_indep (map f (seq 0 n)) d (f 0%nat))
    by now rewrite length_map, length_seq.
  now rewrite map_nth, seq_nth.
Qed.

Lemma nth_map_in {A B : Type} (f : A -> B) (l : list A) (i : nat)
    (d : B) (d' : A) :
  (i < length l)%nat -> nth i (map f l) d = f (nth i l d').
Proof.
  intros Hi.
  rewrite (nth_indep (map f l) d (f d')) by now rewrite length_map.
  apply map_nth.
Qed.

(** [getVertices]: entry [k] of vertex [c] is the share that the fraction
    of category [c] in output coordinate [k] has in the sum of the fractions
    of category [c] over all output coordinates. *)
Theorem getVertices_entries `{F : Framework} (self : DeMixer.t) (c k : nat) :
  has_shape (DeMixer.raw_fractions self)
            (DeMixer.output_dim self) (DeMixer.number_cat self) ->
  (c < DeMixer.number_cat self)%nat -> (k < DeMixer.output_dim self)%nat ->
  nth k (nth c (DeMixer.getVertices self) []) 0 =
  nth c (nth k (DeMixer.getFractions self) []) 0
  / K.sum1 (map (fun row => nth c row 0) (DeMixer.getFractions self)).
Proof.
  intros Hshape Hc Hk.
  assert (Hm : (1 <= DeMixer.output_dim self)%nat) by lia.
  unfold DeMixer.getVertices, DeMixer.getFractions.
  rewrite (to_vertices_columns Hshape Hm).
  rewrite nth_map_seq by exact Hc.
  unfold normalize, raw_vertex, K.softmax.
  destruct Hshape as [Hlen _].
  set (col := map (fun r => nth c (K.softmax_row r) 0)
                  (DeMixer.raw_fractions self)).
  rewrite (@nth_map_in _ _ (fun x => x / K.sum1 col) col k 0 0)
    by (unfold col; now rewrite length_map, Hlen).
  unfold col.
  rewrite (@nth_map_in _ _ (fun r => nth c (K.softmax_row r) 0)
             (DeMixer.raw_fractions self) k 0 []) by now rewrite Hlen.
  rewrite (@nth_map_in _ _ K.softmax_row (DeMixer.raw_fractions self) k [] [])
    by now rewrite Hlen.
  now rewrite map_map.
Qed.

Lemma getVertices_entries_witness :
  nth 1 (nth 2 (DeMixer.getVertices demo_demixer) []) 0 =
  nth 2 (nth 1 (DeMixer.getFractions demo_demixer) []) 0
  / K.sum1 (map (fun row => nth 2 row 0) (DeMixer.getFractions demo_demixer)).
Proof.
  apply (@getVertices_entries demo_framework demo_demixer 2 1).
  - split; [reflexivity | repeat constructor].
  - simpl. lia.
  - simpl. lia.
Defined.

End Fractions.

Section Shift.

Open Scope R_scope.

(** Softmax does not see a constant added to every entry of a row. *)
Lemma softmax_row_shift (v : vector) (c : R) :
  K.softmax_row (map (fun x => x + c) v) = K.softmax_row v.
Proof.
  unfold K.softmax_row. cbv zeta. rewrite !map_map.
  destruct v as [|x0 v]; [reflexivity|].
  assert (Hsum : K.sum1 (map (fun x => exp (x + c)) (x0 :: v))
                 = exp c * K.sum1 (map exp (x0 :: v))).
  { rewrite <- sum1_map_mult. apply sum1_map_ext.
    intros a _. rewrite exp_plus. lra. }
  pose proof (sum_exp_pos (v := x0 :: v) ltac:(discriminate)) as Hpos.
  pose proof (exp_pos c) as Hc.
  rewrite Hsum.
  apply map_ext. intros a. rewrite exp_plus. field. lra.
Qed.

Lemma softmax_shift_rows (raw : matrix) (shifts : vector) :
  length shifts = length raw ->
  K.softmax (shift_rows raw shifts) = K.softmax raw.
Proof.
  revert shifts. unfold K.softmax, shift_rows.
  induction raw as [|r raw IH]; intros [|c shifts] Hlen;
    simpl in Hlen; try discriminate; [reflexivity|].
  cbn [combine map fst snd]. rewrite softmax_row_shift. f_equal.
  apply IH. lia.
Qed.

(** Adding a constant to each row of the raw matrix (a different one per
    row, as the subtraction of the row maximum does) changes neither the
    fractions, nor the vertices, nor the perimeter loss. *)
Theorem shift_rows_invariant (raw : matrix) (shifts : vector) :
  length shifts = length raw ->
  K.softmax (shift_rows raw shifts) = K.softmax raw /\
  to_vertices (shift_rows raw shifts) = to_vertices raw /\
  perimeterLoss (shift_rows raw shifts) = perimeterLoss raw.
Proof.
  intros Hlen. pose proof (softmax_shift_rows raw shifts Hlen) as Hs.
  assert (Hv : to_vertices (shift_rows raw shifts) = to_vertices raw)
    by (unfold to_vertices; now rewrite Hs).
  repeat split; [exact Hs | exact Hv |].
  unfold perimeterLoss. now rewrite Hv.
Qed.

Lemma shift_rows_invariant_witness :
  K.softmax (shift_rows [[0; 1; 5]; [2; 0; -3]] [-5; -2])
  = K.softmax [[0; 1; 5]; [2; 0; -3]] /\
  to_vertices (shift_rows [[0; 1; 5]; [2; 0; -3]] [-5; -2])
  = to_vertices [[0; 1; 5]; [2; 0; -3]] /\
  perimeterLoss (shift_rows [[0; 1; 5]; [2; 0; -3]] [-5; -2])
  = perimeterLoss [[0; 1; 5]; [2; 0; -3]].
Proof.
  apply (@shift_rows_invariant [[0; 1; 5]; [2; 0; -3]] [-5; -2]).
  reflexivity.
Defined.

End Shift.

Section PerimeterBounds.

Open Scope R_scope.

Lemma perimeterLoss_unordered (raw : matrix) (m n : nat) :
  has_shape raw m n -> (1 <= m)%nat ->
  perimeterLoss raw
  = unordered_pairs (to_vertices raw) n + INR n * R_sqrt.sqrt 1e-9 / 2.
Proof.
  intros Hshape Hm.
  destruct (to_vertices_shape Hshape Hm) as [Hlen Hrows].
  rewrite (perimeterLoss_rows _ Hrows), <- ordered_pairs_rows.
  rewrite ordered_unordered, Hlen. lra.
Qed.

(** With one category the loss is the constant [sqrt(1e-9) / 2], whatever
    the raw parameters are. *)
Theorem perimeterLoss_single_category (raw : matrix) (output_dim : nat) :
  has_shape raw output_dim 1 -> (1 <= output_dim)%nat ->
  perimeterLoss raw = R_sqrt.sqrt 1e-9 / 2.
Proof.
  intros Hshape Hm. rewrite (perimeterLoss_unordered Hshape Hm).
  unfold unordered_pairs. simpl. lra.
Qed.

Lemma perimeterLoss_single_category_witness :
  perimeterLoss [[3]; [-7]] = R_sqrt.sqrt 1e-9 / 2.
Proof.
  apply (@perimeterLoss_single_category [[3]; [-7]] 2).
  - split; [reflexivity | repeat constructor].
  - lia.
Defined.

End PerimeterBounds.

Section PureCategories.

Open Scope R_scope.

Lemma eye_row (n c : nat) :
  (c < n)%nat ->
  nth c (K.eye n) [] = map (fun j => if (c =? j)%nat then 1 else 0) (seq 0 n).
Proof. intros Hc. unfold K.eye. now rewrite nth_map_seq. Qed.

(** The rows before the selected one weigh nothing. *)
Lemma onehot_combination_before (h : vector -> R) (V : matrix) (s c : nat) :
  (c < s)%nat ->
  K.sum1 (map (fun pv => fst pv * h (snd pv))
              (combine (map (fun j => if (c =? j)%nat then 1 else 0)
                            (seq s (length V))) V)) = 0.
Proof.
  revert s. induction V as [|v V IH]; intros s Hc; [reflexivity|].
  cbn [length seq map combine K.sum1 fold_right fst snd].
  change (fold_right Rplus 0) with K.sum1.
  rewrite (IH (S s)) by lia.
  destruct (Nat.eqb_spec c s); [lia | lra].
Qed.

(** A one-hot row of coefficients selects one row. *)
Lemma onehot_combination (h : vector -> R) (V : matrix) (s c : nat) :
  (s <= c < s + length V)%nat ->
  K.sum1 (map (fun pv => fst pv * h (snd pv))
              (combine (map (fun j => if (c =? j)%nat then 1 else 0)
                            (seq s (length V))) V))
  = h (nth (c - s) V []).
Proof.
  revert s. induction V as [|v V IH]; intros s Hc; simpl in Hc; [lia|].
  cbn [length seq map combine K.sum1 fold_right fst snd].
  change (fold_right Rplus 0) with K.sum1.
  destruct (Nat.eqb_spec c s) as [-> | Hne].
  - rewrite onehot_combination_before by lia.
    rewrite Nat.sub_diag. simpl. lra.
  - rewrite (IH (S s)) by lia.
    replace (c - s)%nat with (S (c - S s)) by lia. simpl. lra.
Qed.

Lemma dot_row_onehot (V : matrix) (n m c : nat) :
  has_shape V n m -> (c < n)%nat ->
  dot_row V (nth c (K.eye n) []) = nth c V [].
Proof.
  intros HV Hc. pose proof HV as [Hlen Hrows].
  unfold dot_row. rewrite (ncols_shape HV) by lia.
  rewrite (eye_row Hc), <- Hlen.
  rewrite (map_ext _ (fun k => nth k (nth c V []) 0)).
  - assert (Hm : length (nth c V []) = m).
    { apply (proj1 (Forall_forall _ V) Hrows). apply nth_In. lia. }
    rewrite <- Hm. apply nth_seq_id.
  - intros k.
    rewrite (onehot_combination (fun row => nth k row 0) V (s := 0)) by lia.
    now rewrite Nat.sub_0_r.
Qed.

(** The one-hot rows of all categories, in their order, select the rows of
    a matrix in their order. *)
Lemma dot_eye (V : matrix) (n m : nat) :
  has_shape V n m -> map (dot_row V) (K.eye n) = V.
Proof.
  intros HV.
  transitivity (map (fun c => nth c V []) (seq 0 n));
    [|rewrite <- (proj1 HV); apply nth_seq_id].
  unfold K.eye. rewrite map_map.
  apply map_ext_in. intros c Hc. apply in_seq in Hc.
  rewrite <- eye_row by lia.
  apply (dot_row_onehot HV). lia.
Qed.



(** A row of the inner model's output that has not [number_cat] entries
    makes [DeMixer.call] fail at the matrix product, after the loss term
    has been registered. *)
Theorem call_shape_mismatch `{F : Framework}
    (self : DeMixer.t) (inputs : Input) (p : vector) :
  has_shape (DeMixer.raw_fractions self)
            (DeMixer.output_dim self) (DeMixer.number_cat self) ->
  (1 <= DeMixer.output_dim self)%nat ->
  In p (model_call (DeMixer.architecture self) inputs) ->
  length p <> DeMixer.number_cat self ->
  snd (DeMixer.call self inputs) = Raise InvalidArgumentError /\
  DeMixer.losses (fst (DeMixer.call self inputs))
  = (DeMixer.losses self
     ++ [DeMixer.alpha self * perimeterLoss (DeMixer.raw_fractions self)])%list.
Proof.
  intros Hshape Hm Hin Hlen.
  pose proof (to_vertices_shape Hshape Hm) as [HlenV _]. split.
  - unfold DeMixer.call, K.dot.
    cbn [snd DeMixer.add_loss DeMixer.raw_fractions DeMixer.architecture].
    destruct (forallb _ _) eqn:Hall; [|reflexivity].
    apply (proj1 (forallb_forall _ _)) with (x := p) in Hall; [|exact Hin].
    apply Nat.eqb_eq in Hall. congruence.
  - unfold DeMixer.call, DeMixer.losses, DeMixer.add_loss. cbn.
    now rewrite map_app.
Qed.

Lemma call_shape_mismatch_witness :
  snd (@DeMixer.call demo_framework demo_demixer [[0.5; 0.5]])
  = Raise InvalidArgumentError /\
  DeMixer.losses (fst (@DeMixer.call demo_framework demo_demixer [[0.5; 0.5]]))
  = (DeMixer.losses demo_demixer
     ++ [DeMixer.alpha demo_demixer
         * perimeterLoss (DeMixer.raw_fractions demo_demixer)])%list.
Proof.
  apply (@call_shape_mismatch demo_framework demo_demixer
           [[0.5; 0.5]] [0.5; 0.5]).
  - split; [reflexivity | repeat constructor].
  - simpl. lia.
  - left. reflexivity.
  - simpl. lia.
Defined.

End PureCategories.

Section InitialVertices.

Open Scope R_scope.

Lemma sum_indicator_outside (a b : R) (j s n : nat) :
  (j < s \/ s + n <= j)%nat ->
  K.sum1 (map (fun i => if (i =? j)%nat then a else b) (seq s n)) = INR n * b.
Proof.
  revert s. induction n as [|n IH]; intros s Hj; [simpl; lra|].
  rewrite S_INR. cbn [seq map K.sum1 fold_right].
  change (fold_right Rplus 0) with K.sum1.
  rewrite (IH (S s)) by lia.
  destruct (Nat.eqb_spec s j); [lia | lra].
Qed.

Lemma sum_indicator_inside (a b : R) (j s n : nat) :
  (s <= j < s + n)%nat ->
  K.sum1 (map (fun i => if (i =? j)%nat then a else b) (seq s n))
  = a + (INR n - 1) * b.
Proof.
  revert s. induction n as [|n IH]; intros s Hj; [lia|].
  rewrite S_INR. cbn [seq map K.sum1 fold_right].
  change (fold_right Rplus 0) with K.sum1.
  destruct (Nat.eqb_spec s j) as [-> | Hne].
  - rewrite sum_indicator_outside by lia. lra.
  - rewrite (IH (S s)) by lia. lra.
Qed.

(** The softmax of row [i] of the identity. *)
Lemma softmax_eye_row (n i : nat) :
  (i < n)%nat ->
  K.softmax_row (map (fun j => if (i =? j)%nat then 1 else 0) (seq 0 n))
  = map (fun j => (if (i =? j)%nat then exp 1 else 1) / (exp 1 + INR n - 1))
        (seq 0 n).
Proof.
  intros Hi. unfold K.softmax_row. cbv zeta. rewrite !map_map.
  assert (Hsum : K.sum1 (map (fun j => exp (if (i =? j)%nat then 1 else 0))
                             (seq 0 n)) = exp 1 + INR n - 1).
  { rewrite (@sum1_map_ext _ _ (fun j => if (j =? i)%nat then exp 1 else 1)).
    - rewrite sum_indicator_inside by lia. lra.
    - intros j _. rewrite (Nat.eqb_sym j i).
      destruct (i =? j)%nat; [reflexivity | apply exp_0]. }
  rewrite Hsum. apply map_ext. intros j.
  destruct (i =? j)%nat; [reflexivity | now rewrite exp_0].
Qed.

Lemma softmax_eye (n : nat) :
  K.softmax (K.eye n)
  = map (fun i =>
           map (fun j => (if (i =? j)%nat then exp 1 else 1)
                         / (exp 1 + INR n - 1)) (seq 0 n))
        (seq 0 n).
Proof.
  unfold K.softmax, K.eye. rewrite map_map.
  apply map_ext_in. intros i Hi. apply in_seq in Hi.
  apply softmax_eye_row. lia.
Qed.

Lemma slice_cols_all (M : matrix) (m n : nat) :
  has_shape M m n -> K.slice_cols M n = M.
Proof.
  intros [_ Hn]. unfold K.slice_cols.
  rewrite <- (map_id M) at 2. apply map_ext_in. intros r Hr.
  apply firstn_all2. now rewrite (proj1 (Forall_forall _ M) Hn r Hr).
Qed.

(** The vertex matrix of the identity is its softmax: the columns of the
    softmax already sum to 1. *)
Lemma to_vertices_eye (n : nat) :
  (1 <= n)%nat -> to_vertices (K.eye n) = K.softmax (K.eye n).
Proof.
  intros Hn.
  rewrite (to_vertices_columns (eye_shape n) Hn), softmax_eye.
  apply map_ext_in. intros j Hj. apply in_seq in Hj.
  assert (HZ : 0 < exp 1 + INR n - 1).
  { pose proof (exp_pos 1). pose proof (le_INR 1 n Hn) as H1.
    simpl in H1. lra. }
  assert (Hcol : raw_vertex (K.eye n) j
                 = map (fun i => (if (i =? j)%nat then exp 1 else 1)
                                 / (exp 1 + INR n - 1)) (seq 0 n)).
  { unfold raw_vertex, K.eye. rewrite map_map.
    apply map_ext_in. intros i Hi. apply in_seq in Hi.
    rewrite softmax_eye_row by lia. rewrite nth_map_seq by lia. reflexivity. }
  unfold normalize. rewrite Hcol.
  rewrite (sum1_map_div (fun i => if (i =? j)%nat then exp 1 else 1)).
  rewrite sum_indicator_inside by lia.
  rewrite map_map. apply map_ext. intros i.
  rewrite (Nat.eqb_sym j i). field. lra.
Qed.

(** A [DeMixer] with as many categories as output dimensions starts, before
    training, from vertices that equal the fractions: vertex [c] has
    [e / (e + n - 1)] in coordinate [c] and [1 / (e + n - 1)] elsewhere. *)
Theorem initial_vertices `{F : Framework}
    (n : nat) (alpha : R) (architecture : PyObject) :
  add_weight_constant -> (1 <= n)%nat ->
  exists self : DeMixer.t,
    DeMixer.__init__ n n alpha architecture = Ok self /\
    DeMixer.getVertices self = DeMixer.getFractions self /\
    forall c k : nat, (c < n)%nat -> (k < n)%nat ->
      nth k (nth c (DeMixer.getVertices self) []) 0
      = (if (c =? k)%nat then exp 1 else 1) / (exp 1 + INR n - 1).
Proof.
  intros Hweight Hn.
  destruct (DeMixer_init_identity alpha architecture Hweight (le_n n))
    as (self & Hinit & Hraw).
  rewrite (slice_cols_all (eye_shape n)) in Hraw.
  exists self. split; [exact Hinit|].
  unfold DeMixer.getVertices, DeMixer.getFractions. rewrite Hraw.
  split; [now apply to_vertices_eye|].
  intros c k Hc Hk.
  rewrite to_vertices_eye, softmax_eye by exact Hn.
  rewrite nth_map_seq by exact Hc. now rewrite nth_map_seq by exact Hk.
Qed.

Lemma initial_vertices_witness :
  exists self : @DeMixer.t demo_framework,
    @DeMixer.__init__ demo_framework 3 3 0.0001 demo_model = Ok self /\
    DeMixer.getVertices self = DeMixer.getFractions self /\
    forall c k : nat, (c < 3)%nat -> (k < 3)%nat ->
      nth k (nth c (DeMixer.getVertices self) []) 0
      = (if (c =? k)%nat then exp 1 else 1) / (exp 1 + INR 3 - 1).
Proof.
  apply (@initial_vertices demo_framework 3 0.0001 demo_model).
  - intros m n value Hshape. simpl. now rewrite Hshape.
  - lia.
Defined.

End InitialVertices.

(** * Further properties of the hyperparameter dictionary *)

Section DictionaryLaws.

Open Scope string_scope.

Lemma dict_getitem_set_same (d : dict) (k : string) (v : pyval) :
  dict_getitem (dict_set d k v) k = Ok v.
Proof.
  induction d as [|[k0 v0] d IH]; simpl.
  - now rewrite String.eqb_refl.
  - destruct (k0 =? k) eqn:Hk; simpl.
    + now rewrite String.eqb_refl.
    + now rewrite Hk.
Qed.

Lemma dict_getitem_set_other (d : dict) (k k' : string) (v : pyval) :
  k <> k' -> dict_getitem (dict_set d k v) k' = dict_getitem d k'.
Proof.
  intros Hne. induction d as [|[k0 v0] d IH]; simpl.
  - apply String.eqb_neq in Hne. now rewrite Hne.
  - destruct (k0 =? k) eqn:Hk; simpl.
    + apply String.eqb_eq in Hk. subst k0.
      apply String.eqb_neq in Hne. now rewrite Hne.
    + now rewrite IH.
Qed.

Lemma dict_getitem_absent (d : dict) (k : string) :
  ~ In k (dict_keys d) -> dict_getitem d k = Raise (KeyError k).
Proof.
  induction d as [|[k0 v0] d IH]; simpl; intros Hnin; [reflexivity|].
  destruct (String.eqb_spec k0 k) as [-> | Hne]; [tauto|].
  apply IH. tauto.
Qed.

Lemma dict_getitem_present (d : dict) (k : string) (v : pyval) :
  dict_getitem d k = Ok v -> In k (dict_keys d).
Proof.
  induction d as [|[k0 v0] d IH]; simpl; [discriminate|].
  destruct (String.eqb_spec k0 k) as [-> | Hne]; [now left|].
  intros H. right. now apply IH.
Qed.

Lemma dict_keys_set (d : dict) (k : string) (v : pyval) :
  dict_keys (dict_set d k v)
  = if in_dec string_dec k (dict_keys d)
    then dict_keys d else (dict_keys d ++ [k])%list.
Proof.
  induction d as [|[k0 v0] d IH]; [reflexivity|].
  cbn [dict_set]. destruct (String.eqb_spec k0 k) as [-> | Hne].
  - cbn [dict_keys map fst].
    destruct (in_dec string_dec k (k :: map fst d)) as [_ | Hnin];
      [reflexivity|]. exfalso. apply Hnin. now left.
  - cbn [dict_keys map fst]. fold (dict_keys (dict_set d k v)).
    fold (dict_keys d). rewrite IH.
    destruct (in_dec string_dec k (dict_keys d)) as [Hin | Hnin];
      destruct (in_dec string_dec k (k0 :: dict_keys d)) as [Hin' | Hnin'];
      try reflexivity.
    + exfalso. apply Hnin'. now right.
    + destruct Hin' as [-> | Hin']; [congruence | contradiction].
Qed.

Lemma dict_set_NoDup (d : dict) (k : string) (v : pyval) :
  NoDup (dict_keys d) -> NoDup (dict_keys (dict_set d k v)).
Proof.
  intros Hd. rewrite dict_keys_set.
  destruct (in_dec string_dec k (dict_keys d)) as [Hin | Hnin]; [exact Hd|].
  apply NoDup_app; [exact Hd | repeat constructor; intros [] |].
  intros x Hx [<- | []]. contradiction.
Qed.

Lemma dict_update_NoDup (u d : dict) :
  NoDup (dict_keys d) -> NoDup (dict_keys (dict_update d u)).
Proof.
  unfold dict_update. revert d.
  induction u as [|[k v] u IH]; intros d Hd; simpl; [exact Hd|].
  apply IH. now apply dict_set_NoDup.
Qed.

(** A key that [u] does not have keeps its value in [d.update(u)]. *)
Lemma dict_update_other (u d : dict) (k : string) :
  ~ In k (dict_keys u) ->
  dict_getitem (dict_update d u) k = dict_getitem d k.
Proof.
  unfold dict_update. revert d.
  induction u as [|[k0 v0] u IH]; intros d Hnin; simpl; [reflexivity|].
  simpl in Hnin. rewrite IH by tauto.
  apply dict_getitem_set_other. tauto.
Qed.

(** A key of [u] has the value of [u] in [d.update(u)]. *)
Lemma dict_update_override (u d : dict) (k : string) (v : pyval) :
  NoDup (dict_keys u) -> dict_getitem u k = Ok v ->
  dict_getitem (dict_update d u) k = Ok v.
Proof.
  unfold dict_update. revert d.
  induction u as [|[k0 v0] u IH]; intros d Hu Hk; simpl in *; [discriminate|].
  inversion Hu as [|? ? Hnin Hu']; subst.
  destruct (String.eqb_spec k0 k) as [-> | Hne].
  - injection Hk as ->.
    change (fold_left (fun acc kv => dict_set acc (fst kv) (snd kv)) u
                      (dict_set d k v))
      with (dict_update (dict_set d k v) u).
    rewrite dict_update_other by exact Hnin.
    apply dict_getitem_set_same.
  - now apply IH.
Qed.

Lemma dict_pop_absent (d : dict) (k : string) :
  ~ In k (dict_keys d) -> dict_pop d k = None.
Proof.
  induction d as [|[k0 v0] d IH]; simpl; intros Hnin; [reflexivity|].
  destruct (String.eqb_spec k0 k) as [-> | Hne]; [tauto|].
  rewrite IH by tauto. reflexivity.
Qed.

(** [d.pop(k)] on a key of the dictionary returns its value and leaves the
    other keys with their values. *)
Lemma dict_pop_present (d : dict) (k : string) :
  NoDup (dict_keys d) -> In k (dict_keys d) ->
  exists v d',
    dict_pop d k = Some (v, d') /\
    dict_getitem d k = Ok v /\
    ~ In k (dict_keys d') /\
    NoDup (dict_keys d') /\
    (forall k', In k' (dict_keys d') <-> In k' (dict_keys d) /\ k' <> k) /\
    (forall k', k' <> k -> dict_getitem d' k' = dict_getitem d k').
Proof.
  induction d as [|[k0 v0] d IH]; simpl; intros Hd Hin; [contradiction|].
  inversion Hd as [|? ? Hnin Hd']; subst.
  destruct (String.eqb_spec k0 k) as [-> | Hne].
  - exists v0, d.
    split; [reflexivity|]. split; [reflexivity|]. split; [exact Hnin|].
    split; [exact Hd'|]. split.
    + intros k'. split.
      * intros Hk'. split; [now right|]. intros ->. contradiction.
      * intros [[<- | Hk'] Hne']; [congruence | assumption].
    + intros k' Hne'.
      destruct (String.eqb_spec k k') as [-> | _]; [congruence | reflexivity].
  - destruct Hin as [-> | Hin]; [congruence|].
    destruct (IH Hd' Hin) as (v & d' & Hpop & Hget & Hnk & Hnd & Hkeys & Hrest).
    rewrite Hpop. exists v, ((k0, v0) :: d').
    split; [reflexivity|]. split; [exact Hget|].
    split; [|split; [|split]].
    + simpl. intros [-> | Hk]; [congruence | contradiction].
    + simpl. constructor; [|exact Hnd].
      intros Hk0. apply Hkeys in Hk0. tauto.
    + intros k'. simpl. rewrite Hkeys. split.
      * intros [<- | [Hk' Hne']]; [split; [now left | assumption]|].
        split; [now right | assumption].
      * intros [[<- | Hk'] Hne']; [now left | right; tauto].
    + intros k' Hne'. simpl.
      destruct (k0 =? k'); [reflexivity | now apply Hrest].
Qed.

End DictionaryLaws.

(** * Properties of [ArchBase] *)

Section ArchBaseLaws.

Open Scope string_scope.

Lemma fold_update_NoDup (args : list dict) (d : dict) :
  NoDup (dict_keys d) -> NoDup (dict_keys (fold_left dict_update args d)).
Proof.
  revert d. induction args as [|a args IH]; intros d Hd; simpl; [exact Hd|].
  apply IH. now apply dict_update_NoDup.
Qed.

(** [self.hps] after [ArchBase.__init__]: a keyword hyperparameter takes
    precedence over the positional dictionaries, a key that is no keyword
    has the value that the positional dictionaries give it, the last
    positional dictionary is merged as keyword arguments are, and no key
    occurs twice. *)
Theorem hps_keywords_take_precedence (args : list dict) (kwargs : dict) :
  NoDup (dict_keys kwargs) ->
  NoDup (dict_keys (ArchBase.hps args kwargs)) /\
  (forall k v, dict_getitem kwargs k = Ok v ->
               dict_getitem (ArchBase.hps args kwargs) k = Ok v) /\
  (forall k, ~ In k (dict_keys kwargs) ->
             dict_getitem (ArchBase.hps args kwargs) k
             = dict_getitem (ArchBase.hps args []) k) /\
  (forall d, ArchBase.hps (args ++ [d]) [] = ArchBase.hps args d).
Proof.
  intros Hkw. unfold ArchBase.hps. repeat split.
  - apply dict_update_NoDup, fold_update_NoDup. constructor.
  - intros k v Hk. now apply dict_update_override.
  - intros k Hk. now rewrite dict_update_other.
  - intros d. now rewrite fold_left_app.
Qed.

Lemma hps_keywords_take_precedence_witness :
  dict_getitem
    (ArchBase.hps [[("output_dim", PyInt 2); ("mode", PyStr "plain")];
                   [("output_dim", PyInt 3)]]
                  [("mode", PyStr "demix")]) "mode" = Ok (PyStr "demix") /\
  dict_getitem
    (ArchBase.hps [[("output_dim", PyInt 2); ("mode", PyStr "plain")];
                   [("output_dim", PyInt 3)]]
                  [("mode", PyStr "demix")]) "output_dim" = Ok (PyInt 3).
Proof.
  destruct (@hps_keywords_take_precedence
              [[("output_dim", PyInt 2); ("mode", PyStr "plain")];
               [("output_dim", PyInt 3)]]
              [("mode", PyStr "demix")])
    as (_ & Hkw & Hpos & _).
  - repeat constructor. intros [].
  - split.
    + apply Hkw. reflexivity.
    + rewrite Hpos; [reflexivity|]. simpl. intros [H | []]. discriminate H.
Defined.

Lemma dict_get_present (d : dict) (k : string) (v : pyval) :
  dict_getitem d k = Ok v -> dict_get d k = Some v.
Proof. unfold dict_get. now intros ->. Qed.

Lemma dict_get_absent (d : dict) (k : string) :
  ~ In k (dict_keys d) -> dict_get d k = None.
Proof. intros Hk. unfold dict_get. now rewrite dict_getitem_absent. Qed.

Lemma proc_arg_default (hps : dict) (name : string) (default : pyval) :
  NoDup (dict_keys hps) ->
  exists hps' : dict,
    ArchBase._proc_arg hps name None (Some default)
    = Ok (_proc_arg (dict_get hps name) default, hps', []) /\
    NoDup (dict_keys hps') /\
    (forall k, In k (dict_keys hps') <-> In k (dict_keys hps) /\ k <> name) /\
    (forall k, k <> name -> dict_getitem hps' k = dict_getitem hps k).
Proof.
  intros Hnd. unfold ArchBase._proc_arg.
  destruct (in_dec string_dec name (dict_keys hps)) as [Hin | Hnin].
  - destruct (@dict_pop_present hps name Hnd Hin)
      as (v & hps' & Hpop & Hget & _ & Hnd' & Hkeys & Hrest).
    exists hps'. rewrite Hpop, (@dict_get_present _ _ _ Hget).
    repeat split; try assumption; apply Hkeys; assumption.
  - exists hps. rewrite (@dict_pop_absent _ _ Hnin), (@dict_get_absent _ _ Hnin).
    split; [reflexivity|]. split; [exact Hnd|]. split; [|reflexivity].
    intros k. split; [|tauto].
    intros Hk. split; [exact Hk|]. intros ->. contradiction.
Qed.

(** [_proc_arg] with a default: the value is the one of the key, or the
    default when the key is missing; afterwards the key is gone and every
    other key has the value it had. No warning is given. *)
Theorem proc_arg_pops_key (hps : dict) (name : string) (default : pyval) :
  NoDup (dict_keys hps) ->
  exists hps' : dict,
    ArchBase._proc_arg hps name None (Some default)
    = Ok (_proc_arg (dict_get hps name) default, hps', []) /\
    NoDup (dict_keys hps') /\
    (forall k, In k (dict_keys hps') <-> In k (dict_keys hps) /\ k <> name) /\
    (forall k, k <> name -> dict_getitem hps' k = dict_getitem hps k).
Proof.
  intros Hnd.
  destruct (@proc_arg_default hps name default Hnd)
    as (hps' & Heq & Hnd' & Hkeys & Hrest).
  exists hps'. split; [exact Heq|]. split; [exact Hnd'|].
  split; [exact Hkeys | exact Hrest].
Qed.

Lemma proc_arg_pops_key_witness :
  exists hps' : dict,
    ArchBase._proc_arg [("mode", PyStr "plain"); ("alpha", PyInt 1)]
                       "mode" None (Some (PyStr "demix"))
    = Ok (PyStr "plain", hps', []) /\
    NoDup (dict_keys hps') /\
    (forall k, In k (dict_keys hps')
               <-> In k (dict_keys [("mode", PyStr "plain"); ("alpha", PyInt 1)])
                   /\ k <> "mode") /\
    (forall k, k <> "mode" ->
               dict_getitem hps' k
               = dict_getitem [("mode", PyStr "plain"); ("alpha", PyInt 1)] k).
Proof.
  apply (@proc_arg_pops_key [("mode", PyStr "plain"); ("alpha", PyInt 1)]
           "mode" (PyStr "demix")).
  repeat constructor; simpl; intuition discriminate.
Defined.

(** [_proc_arg] without a default, for a key that is missing and without a
    deprecated key in the dictionary, raises [KeyError]. *)
Theorem proc_arg_missing_key (hps : dict) (name : string) (old : option string) :
  ~ In name (dict_keys hps) ->
  (forall o, old = Some o -> ~ In o (dict_keys hps)) ->
  ArchBase._proc_arg hps name old None = Raise (KeyError name).
Proof.
  intros Hname Hold. unfold ArchBase._proc_arg.
  destruct old as [o|].
  - rewrite (@dict_pop_absent _ _ (Hold o eq_refl)).
    now rewrite (@dict_pop_absent _ _ Hname).
  - now rewrite (@dict_pop_absent _ _ Hname).
Qed.

Lemma proc_arg_missing_key_witness :
  ArchBase._proc_arg [("alpha", PyInt 1)] "mode" (Some "kind") None
  = Raise (KeyError "mode").
Proof.
  apply (@proc_arg_missing_key [("alpha", PyInt 1)] "mode" (Some "kind")).
  - simpl. intuition discriminate.
  - intros o Ho. injection Ho as <-. simpl. intuition discriminate.
Defined.

(** [_proc_arg] with a deprecated key that the dictionary has: a
    [FutureWarning] names both keys, the value of the deprecated key
    replaces the default that was given, the value of the new key still
    wins when it is there, and both keys are gone afterwards. *)
Theorem proc_arg_deprecated_key (hps : dict) (name old : string)
    (default : option pyval) (vo : pyval) :
  NoDup (dict_keys hps) -> dict_getitem hps old = Ok vo -> old <> name ->
  exists hps' : dict,
    ArchBase._proc_arg hps name (Some old) default
    = Ok (_proc_arg (dict_get hps name) vo, hps',
          [ArchBase.deprecated old name]) /\
    (forall k, In k (dict_keys hps')
               <-> In k (dict_keys hps) /\ k <> old /\ k <> name) /\
    (forall k, k <> old -> k <> name ->
               dict_getitem hps' k = dict_getitem hps k).
Proof.
  intros Hnd Hold Hne. unfold ArchBase._proc_arg.
  destruct (@dict_pop_present hps old Hnd (@dict_getitem_present _ _ _ Hold))
    as (v & hps1 & Hpop & Hget & _ & Hnd1 & Hkeys1 & Hrest1).
  rewrite Hpop. rewrite Hold in Hget. injection Hget as <-.
  destruct (in_dec string_dec name (dict_keys hps)) as [Hin | Hnin].
  - assert (Hin1 : In name (dict_keys hps1)) by (apply Hkeys1; split; congruence).
    destruct (@dict_pop_present hps1 name Hnd1 Hin1)
      as (w & hps2 & Hpop2 & Hget2 & _ & _ & Hkeys2 & Hrest2).
    rewrite Hpop2. rewrite Hrest1 in Hget2 by congruence.
    rewrite (@dict_get_present _ _ _ Hget2).
    exists hps2. split; [reflexivity|]. split.
    + intros k. rewrite Hkeys2, Hkeys1. tauto.
    + intros k Hk1 Hk2. rewrite Hrest2, Hrest1 by assumption. reflexivity.
  - assert (Hnin1 : ~ In name (dict_keys hps1))
      by (intros H; apply Hkeys1 in H; tauto).
    rewrite (@dict_pop_absent _ _ Hnin1), (@dict_get_absent _ _ Hnin).
    exists hps1. split; [reflexivity|]. split.
    + intros k. rewrite Hkeys1. split; [|tauto].
      intros [Hk Hko]. repeat split; try assumption. intros ->. contradiction.
    + intros k Hk1 _. now apply Hrest1.
Qed.

Lemma proc_arg_deprecated_key_witness :
  exists hps' : dict,
    ArchBase._proc_arg [("nb_epoch", PyInt 5); ("alpha", PyInt 1)]
                       "epochs" (Some "nb_epoch") (Some (PyInt 10))
    = Ok (PyInt 5, hps',
          ["'nb_epoch' is deprecated and will be removed in the future, use 'epochs' instead."]) /\
    (forall k, In k (dict_keys hps')
               <-> In k (dict_keys [("nb_epoch", PyInt 5); ("alpha", PyInt 1)])
                   /\ k <> "nb_epoch" /\ k <> "epochs") /\
    (forall k, k <> "nb_epoch" -> k <> "epochs" ->
               dict_getitem hps' k
               = dict_getitem [("nb_epoch", PyInt 5); ("alpha", PyInt 1)] k).
Proof.
  apply (@proc_arg_deprecated_key
           [("nb_epoch", PyInt 5); ("alpha", PyInt 1)]
           "epochs" "nb_epoch" (Some (PyInt 10)) (PyInt 5)).
  - repeat constructor; simpl; intuition discriminate.
  - reflexivity.
  - discriminate.
Defined.

(** After [_proc_arg] has popped a key, [_verify_empty_hps] passes when the
    dictionary had no other key, and otherwise raises a [ValueError] that
    names a key of the dictionary other than the popped one. *)
Theorem verify_empty_after_pop (hps : dict) (name : string) (default : pyval)
    (value : pyval) (hps' : dict) (warned : list string) :
  NoDup (dict_keys hps) ->
  ArchBase._proc_arg hps name None (Some default) = Ok (value, hps', warned) ->
  ((forall k, In k (dict_keys hps) -> k = name) ->
   ArchBase._verify_empty_hps hps' = Ok tt) /\
  ((exists k, In k (dict_keys hps) /\ k <> name) ->
   exists k0, In k0 (dict_keys hps) /\ k0 <> name /\
     ArchBase._verify_empty_hps hps'
     = Raise (ValueError ("unrecognized keyword argument " ++ k0))).
Proof.
  intros Hnd Hproc.
  destruct (@proc_arg_default hps name default Hnd)
    as (hps'' & Heq & _ & Hkeys & _).
  rewrite Heq in Hproc. injection Hproc as _ <- _.
  split.
  - intros Honly. destruct hps'' as [|[k0 v0] rest]; [reflexivity|].
    assert (Hk0 : In k0 (dict_keys ((k0, v0) :: rest))) by now left.
    apply Hkeys in Hk0. destruct Hk0 as [Hk0 Hne].
    elim Hne. now apply Honly.
  - intros (k & Hk & Hne).
    destruct hps'' as [|[k0 v0] rest].
    + assert (Hin : In k (dict_keys [])) by (apply Hkeys; tauto).
      destruct Hin.
    + assert (Hk0 : In k0 (dict_keys ((k0, v0) :: rest))) by now left.
      apply Hkeys in Hk0. exists k0. repeat split; tauto.
Qed.

Lemma verify_empty_after_pop_witness :
  exists k0, In k0 (dict_keys [("mode", PyStr "plain"); ("alhpa", PyInt 1)])
    /\ k0 <> "mode" /\
    ArchBase._verify_empty_hps [("alhpa", PyInt 1)]
    = Raise (ValueError ("unrecognized keyword argument " ++ k0)).
Proof.
  apply (proj2 (@verify_empty_after_pop
                  [("mode", PyStr "plain"); ("alhpa", PyInt 1)] "mode"
                  (PyStr "demix") (PyStr "plain") [("alhpa", PyInt 1)] []
                  ltac:(repeat constructor; simpl; intuition discriminate)
                  eq_refl)).
  exists "alhpa". split; [simpl; tauto | discriminate].
Defined.

End ArchBaseLaws.

(** * Further properties of [NNBase] *)

Section ProcessedOptions.

Context `{F : Framework}.

Open Scope string_scope.

(** The dictionaries that [_process_hps] builds, and the attributes it reads
    back from them. *)
Lemma _process_hps_opts (h : hps) (self : NNBase.t) :
  NNBase._process_hps h = Ok self ->
  NNBase.compile_opts self
  = dict_update
      [("loss", _proc_arg (hp_loss h) (PyStr "categorical_crossentropy"));
       ("optimizer", _proc_arg (hp_optimizer h) (PyStr "adam"));
       ("metrics", _proc_arg (hp_metrics h) (PyStrList ["acc"]))]
      (_proc_arg (hp_compile_opts h) []) /\
  NNBase.modelcheck_opts self
  = dict_update
      [("save_best_only", PyBool true); ("verbose", PyInt 1);
       ("save_weights_only", PyBool (_proc_arg (hp_save_weights_only h) false))]
      (_proc_arg (hp_modelcheck_opts h) []) /\
  NNBase.earlystop_opts self
  = dict_update
      [("restore_best_weights", PyBool true); ("verbose", PyInt 1);
       ("patience", _proc_arg (hp_patience h) PyNone)]
      (_proc_arg (hp_earlystop_opts h) []) /\
  dict_getitem (NNBase.compile_opts self) "loss" = Ok (NNBase.loss self) /\
  dict_getitem (NNBase.compile_opts self) "optimizer"
  = Ok (NNBase.optimizer self) /\
  dict_getitem (NNBase.compile_opts self) "metrics" = Ok (NNBase.metrics self) /\
  dict_getitem (NNBase.modelcheck_opts self) "save_weights_only"
  = Ok (NNBase.save_weights_only self) /\
  dict_getitem (NNBase.earlystop_opts self) "patience"
  = Ok (NNBase.patience self).
Proof.
  unfold NNBase._process_hps.
  repeat match goal with
  | |- context [bind (dict_getitem ?d ?k) _] =>
      let v := fresh "v" in
      let Hv := fresh "Hv" in
      destruct (dict_getitem d k) as [v | ?] eqn:Hv; cbn [bind];
      [|discriminate]
  end.
  destruct (negb _); [discriminate|].
  destruct (_ =? "demix"); intros Hself; injection Hself as <-; cbn;
    repeat split; assumption.
Qed.

(** An entry of the dictionary [compile_opts], [modelcheck_opts] or
    [earlystop_opts] that the caller gives replaces the hyperparameter of
    the same name: [loss], [save_weights_only], [patience]. *)
Theorem opts_override_hyperparameters (h : hps) (self : NNBase.t) :
  NNBase._process_hps h = Ok self ->
  (forall u v, hp_compile_opts h = Some u -> NoDup (dict_keys u) ->
     dict_getitem u "loss" = Ok v -> NNBase.loss self = v) /\
  (forall u v, hp_modelcheck_opts h = Some u -> NoDup (dict_keys u) ->
     dict_getitem u "save_weights_only" = Ok v ->
     NNBase.save_weights_only self = v) /\
  (forall u v, hp_earlystop_opts h = Some u -> NoDup (dict_keys u) ->
     dict_getitem u "patience" = Ok v -> NNBase.patience self = v).
Proof.
  intros Hself.
  destruct (_process_hps_opts h Hself)
    as (Hco & Hmo & Heo & Hloss & _ & _ & Hswo & Hpat).
  repeat split; intros u v Hu Hnd Hv.
  - rewrite Hco, Hu in Hloss. cbn [_proc_arg] in Hloss.
    rewrite (@dict_update_override u _ "loss" v Hnd Hv) in Hloss. congruence.
  - rewrite Hmo, Hu in Hswo. cbn [_proc_arg] in Hswo.
    rewrite (@dict_update_override u _ "save_weights_only" v Hnd Hv) in Hswo.
    congruence.
  - rewrite Heo, Hu in Hpat. cbn [_proc_arg] in Hpat.
    rewrite (@dict_update_override u _ "patience" v Hnd Hv) in Hpat.
    congruence.
Qed.

End ProcessedOptions.

Lemma opts_override_hyperparameters_witness :
  exists self : @NNBase.t demo_framework,
    NNBase._process_hps override_hps = Ok self /\
    NNBase.loss self = PyStr "mae" /\
    NNBase.save_weights_only self = PyBool true /\
    NNBase.patience self = PyInt 0.
Proof.
  eexists. split; [reflexivity|].
  destruct (@opts_override_hyperparameters demo_framework override_hps _
              eq_refl) as (Hloss & Hswo & Hpat).
  split; [|split].
  - apply (Hloss [("loss", PyStr "mae")] (PyStr "mae") eq_refl);
      [repeat constructor; intros [] | reflexivity].
  - apply (Hswo [("save_weights_only", PyBool true)] (PyBool true) eq_refl);
      [repeat constructor; intros [] | reflexivity].
  - apply (Hpat [("patience", PyInt 0)] (PyInt 0) eq_refl);
      [repeat constructor; intros [] | reflexivity].
Defined.

Ltac in_cases H :=
  repeat (destruct H as [H | H]); try discriminate H; try contradiction.

Section FitCallbacks.

Context `{F : Framework} `{A : @NNBase.Architecture F}.

Open Scope string_scope.

(** [fit], once the object to fit is found: a [ModelCheckpoint] callback is
    added exactly when a non-empty file path is set and the model is saved
    while training, an [EarlyStopping] callback exactly when the patience
    is not [None] (a patience of 0 included); the model is saved after the
    fit exactly when a non-empty file path is set and it was not saved
    while training, as weights or in full according to
    [save_weights_only]; checkpointing and the save at the end never
    occur together. *)
Theorem fit_callbacks_and_saving (self : NNBase.t) (on : NNBase.target)
    (args : Args) :
  (if NNBase.mode self =? "demix"
   then NNBase.demixer self
   else m <- NNBase.self_model self ;; Ok (inr m)) = Ok on ->
  exists callbacks saved,
    NNBase.fit self args
    = Ok (NNBase.FitCall on args callbacks :: saved ++ [NNBase.GcCollect])%list /\
    (forall path opts,
       In (NNBase.ModelCheckpoint path opts) callbacks <->
       NNBase.filepath self = Some path /\ path <> "" /\
       NNBase.save_while_training self = true /\
       opts = NNBase.modelcheck_opts self) /\
    (forall opts,
       In (NNBase.EarlyStopping opts) callbacks <->
       NNBase.patience self <> PyNone /\ opts = NNBase.earlystop_opts self) /\
    (forall path,
       NNBase.filepath self = Some path -> path <> "" ->
       NNBase.save_while_training self = false ->
       saved = [if truthy (NNBase.save_weights_only self)
                then NNBase.SaveWeightsCall on path
                else NNBase.SaveCall on path]) /\
    (saved <> [] ->
     exists path, NNBase.filepath self = Some path /\ path <> "" /\
                  NNBase.save_while_training self = false) /\
    ((exists path opts, In (NNBase.ModelCheckpoint path opts) callbacks) ->
     saved = []).
Proof.
  intros Hon. unfold NNBase.fit. rewrite Hon. cbn [bind].
  eexists. eexists. split; [reflexivity|].
  destruct (NNBase.filepath self) as [p|] eqn:Hfp;
    [destruct (String.eqb_spec p "") as [Hp | Hp]|];
    destruct (NNBase.save_while_training self) eqn:Hswt;
    destruct (NNBase.patience self) eqn:Hpat;
    destruct (truthy (NNBase.save_weights_only self)) eqn:Hswo;
    cbn [negb andb app is_not_None];
    (split; [|split; [|split; [|split]]]).
  all: try (intros path opts; split;
            [ intros H; in_cases H; injection H as <- <-;
              repeat split; congruence
            | intros (H1 & H2 & H3 & H4);
              first [ discriminate | congruence
                    | injection H1 as <-; subst opts; simpl; auto ] ]).
  all: try (intros opts; split;
            [ intros H; in_cases H; injection H as <-;
              (split; [discriminate | reflexivity])
            | intros (H1 & H2);
              first [ now elim H1 | subst opts; simpl; auto ] ]).
  all: try (intros path H1 H2 H3;
            first [ discriminate | congruence
                  | injection H1 as <-; reflexivity ]).
  all: try (intros H; first [ congruence | exists p; repeat split; congruence ]).
  all: try (intros (path & opts & H); first [ reflexivity | in_cases H ]).
Qed.

End FitCallbacks.

Lemma fit_callbacks_and_saving_witness :
  exists callbacks saved,
    @NNBase.fit demo_framework demo_architecture demo_saving tt
    = Ok (NNBase.FitCall (inr demo_model) tt callbacks
          :: saved ++ [NNBase.GcCollect])%list /\
    (forall path opts,
       In (NNBase.ModelCheckpoint path opts) callbacks <->
       NNBase.filepath demo_saving = Some path /\ path <> ""%string /\
       NNBase.save_while_training demo_saving = true /\
       opts = NNBase.modelcheck_opts demo_saving) /\
    (forall opts,
       In (NNBase.EarlyStopping opts) callbacks <->
       NNBase.patience demo_saving <> PyNone /\
       opts = NNBase.earlystop_opts demo_saving) /\
    (forall path,
       NNBase.filepath demo_saving = Some path -> path <> ""%string ->
       NNBase.save_while_training demo_saving = false ->
       saved = [if truthy (NNBase.save_weights_only demo_saving)
                then NNBase.SaveWeightsCall (inr demo_model) path
                else NNBase.SaveCall (inr demo_model) path]) /\
    (saved <> [] ->
     exists path, NNBase.filepath demo_saving = Some path /\ path <> ""%string /\
                  NNBase.save_while_training demo_saving = false) /\
    ((exists path opts, In (NNBase.ModelCheckpoint path opts) callbacks) ->
     saved = []).
Proof.
  apply (@fit_callbacks_and_saving demo_framework demo_architecture
           demo_saving (inr demo_model) tt).
  reflexivity.
Defined.

Example fit_saves_at_the_end :
  @NNBase.fit demo_framework demo_architecture demo_saving tt
  = Ok [NNBase.FitCall (inr demo_model) tt
          [NNBase.EarlyStopping (NNBase.earlystop_opts demo_saving)];
        NNBase.SaveCall (inr demo_model) "model.h5";
        NNBase.GcCollect].
Proof. reflexivity. Qed.

Section WithoutModel.

Context `{F : Framework} `{A : @NNBase.Architecture F}.

Open Scope string_scope.

Lemma demixer_without_model (self : NNBase.t) :
  NNBase._model self = None -> NNBase._demixer self = None ->
  NNBase.demixer self = Raise RecursionError.
Proof.
  intros Hm Hd. unfold NNBase.demixer, NNBase.self_model.
  rewrite Hd, (model_unset self _ Hm). reflexivity.
Qed.

(** On an object without [_model], [fit] and [predict] end in a
    [RecursionError], in plain mode and also in demix mode when there is
    no demixer. *)
Theorem fit_predict_without_model (self : NNBase.t) (args : Args) :
  NNBase._model self = None ->
  NNBase.mode self <> "demix" \/ NNBase._demixer self = None ->
  NNBase.fit self args = Raise RecursionError /\
  NNBase.predict self args = Raise RecursionError.
Proof.
  intros Hm Hcase. unfold NNBase.fit, NNBase.predict.
  destruct (String.eqb_spec (NNBase.mode self) "demix") as [Hmode | Hmode].
  - destruct Hcase as [Hne | Hd]; [contradiction|].
    rewrite (demixer_without_model self Hm Hd). split; reflexivity.
  - unfold NNBase.self_model. rewrite (model_unset self _ Hm).
    split; reflexivity.
Qed.

End WithoutModel.

Lemma fit_predict_without_model_witness :
  @NNBase.fit demo_framework demo_architecture demo_unbuilt tt
  = Raise RecursionError /\
  @NNBase.predict demo_framework demo_architecture demo_unbuilt tt
  = Raise RecursionError.
Proof.
  apply (@fit_predict_without_model demo_framework demo_architecture
           demo_unbuilt tt).
  - reflexivity.
  - right. reflexivity.
Defined.

Section Compilation.

Context `{F : Framework} `{A : @NNBase.Architecture F}.

Open Scope string_scope.

(** After a construction in demix mode the demixer has been compiled
    exactly when the [compile] flag is set, with the options that
    [_compile_model] passes to the inner model; a summary is printed for
    the inner model only, and only when it is compiled. *)
Theorem demixer_compiled_like_model (h : hps) (build : NNBase.t -> PyObject)
    (self : NNBase.t) (events : list NNBase.event) :
  NNBase.stores_model build -> (1 <= recursion_limit)%nat ->
  lower (_proc_arg (hp_mode h) "demix") = "demix" ->
  NNBase.__init__ h = Ok (self, events) ->
  exists (m : PyObject) (d : DeMixer.t),
    NNBase._model self = Some m /\
    NNBase._demixer self = Some d /\
    events = (if NNBase.compile self
              then [NNBase.CompileCall (inl d) (NNBase.compile_opts self)]
              else []) /\
    NNBase._compile_model self
    = Ok (if NNBase.compile self
          then NNBase.ModelCompileCall m (NNBase.compile_opts self)
               :: (if NNBase.summary self then [NNBase.SummaryCall m] else [])
          else []).
Proof.
  intros Hbuild Hdepth Hmode Hinit.
  destruct (init_demix h Hbuild Hdepth Hmode) as (inner & _ & _ & _ & Heq).
  rewrite Heq in Hinit.
  destruct (DeMixer.__init__ _ _ _ _) as [d | e]; cbn [bind] in Hinit;
    [|discriminate].
  injection Hinit as <- <-.
  exists (build inner), d.
  split; [reflexivity|]. split; [reflexivity|]. split; [reflexivity|].
  unfold NNBase._compile_model.
  cbn [NNBase.compile NNBase.summary NNBase.compile_opts
       NNBase.set__demixer NNBase.set__model].
  destruct (NNBase.compile inner); [|reflexivity].
  rewrite (self_model_set
             (NNBase.set__demixer (NNBase.set__model inner (build inner)) d)
             eq_refl Hdepth).
  cbn [bind]. destruct (NNBase.summary inner); reflexivity.
Qed.

End Compilation.

Lemma demixer_compiled_like_model_witness :
  exists (self : @NNBase.t demo_framework) (events : list NNBase.event)
         (m : @PyObject demo_framework) (d : DeMixer.t),
    @NNBase.__init__ demo_framework demo_architecture no_hps
    = Ok (self, events) /\
    NNBase._model self = Some m /\
    NNBase._demixer self = Some d /\
    events = (if NNBase.compile self
              then [NNBase.CompileCall (inl d) (NNBase.compile_opts self)]
              else []) /\
    @NNBase._compile_model demo_framework demo_architecture self
    = Ok (if NNBase.compile self
          then NNBase.ModelCompileCall m (NNBase.compile_opts self)
               :: (if NNBase.summary self then [NNBase.SummaryCall m] else [])
          else []).
Proof.
  eexists. eexists.
  assert (Hinit : @NNBase.__init__ demo_framework demo_architecture no_hps
                  = Ok (?[self], ?[events])) by reflexivity.
  destruct (@demixer_compiled_like_model demo_framework demo_architecture
              no_hps (fun _ => demo_model) _ _
              (fun self => eq_refl) (le_S_n 1 1000 ltac:(simpl; lia))
              eq_refl Hinit) as (m & d & H).
  exists m, d. split; [exact Hinit | exact H].
Defined.
